(** * nitpick.style.fetchers: fetcher dispatch, URL classification, scheme
      registration and cache-session construction.

    A shallow embedding of [src/nitpick/style/fetchers/__init__.py].

    Python [str] values are modelled as [string]; a character is a code
    point below 256.  Exceptions are modelled by the [result] type; the
    process-wide state the module touches (urllib's scheme tables, the
    [lru_cache] of [_register_on_urllib], the calls made to fetchers) is
    threaded explicitly. *)

From Stdlib Require Import String Ascii List ZArith Bool Lia.
From stdpp Require Import base option list gmap strings.

Local Open Scope string_scope.

(** ** Exceptions and results *)

Inductive exn : Type :=
  | RuntimeError (msg : string)
  | ValueError (msg : string)
  | FetcherError (msg : string).

Inductive result (A : Type) : Type :=
  | Ok (a : A)
  | Raise (e : exn).

Arguments Ok {A} a.
Arguments Raise {A} e.

Definition rbind {A B : Type} (r : result A) (k : A -> result B) : result B :=
  match r with
  | Ok a => k a
  | Raise e => Raise e
  end.

Notation "'do' x <- r ; k" := (rbind r (fun x => k))
  (at level 10, x name, r at level 100, k at level 200).

(** ** Python string operations used by the module and by urllib.parse *)

Module PyStr.

Definition code (c : ascii) : nat := nat_of_ascii c.

Definition in_range (lo hi : nat) (c : ascii) : bool :=
    (lo <=? code c)%nat && (code c <=? hi)%nat.

Definition is_ascii_upper (c : ascii) : bool := in_range 65 90 c.
Definition is_ascii_lower (c : ascii) : bool := in_range 97 122 c.
Definition is_digit (c : ascii) : bool := in_range 48 57 c.
Definition is_ascii_alpha (c : ascii) : bool := is_ascii_upper c || is_ascii_lower c.
Definition isascii_char (c : ascii) : bool := (code c <? 128)%nat.

(** [str.isascii] *)
Fixpoint isascii (s : string) : bool :=
    match s with
    | EmptyString => true
    | String c r => isascii_char c && isascii r
    end.

(** [str.lower] on code points below 256: A-Z, and the Latin-1 capitals
      U+00C0..U+00DE except the multiplication sign U+00D7. *)
Definition lower_char (c : ascii) : ascii :=
    if is_ascii_upper c then ascii_of_nat (code c + 32)
    else if in_range 192 222 c && negb (code c =? 215)%nat
         then ascii_of_nat (code c + 32)
         else c.

Fixpoint lower (s : string) : string :=
    match s with
    | EmptyString => EmptyString
    | String c r => String (lower_char c) (lower r)
    end.

Fixpoint all (p : ascii -> bool) (s : string) : bool :=
    match s with
    | EmptyString => true
    | String c r => p c && all p r
    end.

(** [c in s] *)
Fixpoint contains (c : ascii) (s : string) : bool :=
    match s with
    | EmptyString => false
    | String d r => Ascii.eqb c d || contains c r
    end.

(** [s.replace(c, "")] for every [c] with [p c]: the characters are dropped. *)
Fixpoint remove (p : ascii -> bool) (s : string) : string :=
    match s with
    | EmptyString => EmptyString
    | String c r => if p c then remove p r else String c (remove p r)
    end.

(** [s.lstrip(chars)] with [chars] given as a predicate. *)
Fixpoint lstrip (p : ascii -> bool) (s : string) : string :=
    match s with
    | EmptyString => EmptyString
    | String c r => if p c then lstrip p r else s
    end.

(** [s[:n]] and [s[n:]] *)
Fixpoint take (n : nat) (s : string) : string :=
    match n, s with
    | O, _ => EmptyString
    | S _, EmptyString => EmptyString
    | S m, String c r => String c (take m r)
    end.

Fixpoint drop (n : nat) (s : string) : string :=
    match n, s with
    | O, _ => s
    | S _, EmptyString => EmptyString
    | S m, String _ r => drop m r
    end.

(** [s.find(c)]: [None] stands for Python's -1. *)
Fixpoint find (c : ascii) (s : string) : option nat :=
    match s with
    | EmptyString => None
    | String d r => if Ascii.eqb c d then Some O else option_map S (find c r)
    end.

(** [s.find(c, start)] *)
Definition find_from (c : ascii) (start : nat) (s : string) : option nat :=
    option_map (fun i => (start + i)%nat) (find c (drop start s)).

(** [s.partition(c)] as (head, found, tail). *)
Definition partition (c : ascii) (s : string) : string * bool * string :=
    match find c s with
    | Some i => (take i s, true, drop (S i) s)
    | None => (s, false, EmptyString)
    end.

(** Index of the last occurrence of [c] in [s]. *)
Fixpoint rfind (c : ascii) (s : string) : option nat :=
    match s with
    | EmptyString => None
    | String d r =>
        match rfind c r with
        | Some i => Some (S i)
        | None => if Ascii.eqb c d then Some O else None
        end
    end.

(** [s.rpartition(c)] as (head, found, tail). *)
Definition rpartition (c : ascii) (s : string) : string * bool * string :=
    match rfind c s with
    | Some i => (take i s, true, drop (S i) s)
    | None => (EmptyString, false, s)
    end.

(** [s.startswith(p)] *)
Definition startswith (p s : string) : bool := String.prefix p s.

Definition nonempty (s : string) : bool :=
    match s with EmptyString => false | _ => true end.

End PyStr.

(** ** urllib.parse (CPython 3.11): the part of [urlparse] that decides the
       [scheme] and [hostname] attributes read by the module *)

Module Urllib.

Import PyStr.

(** [scheme_chars] *)
Definition scheme_char (c : ascii) : bool :=
    is_ascii_lower c || is_ascii_upper c || is_digit c
    || Ascii.eqb c "+" || Ascii.eqb c "-" || Ascii.eqb c ".".

(** [_WHATWG_C0_CONTROL_OR_SPACE] *)
Definition c0_control_or_space (c : ascii) : bool := (code c <=? 32)%nat.

(** [_UNSAFE_URL_BYTES_TO_REMOVE]: tab, carriage return, line feed. *)
Definition unsafe_url_byte (c : ascii) : bool :=
    (code c =? 9)%nat || (code c =? 13)%nat || (code c =? 10)%nat.

(** [_splitnetloc(url, start)]: the earliest of the delimiters "/", "?",
      "#" at or after [start] ends the network location. *)
Definition _splitnetloc (url : string) (start : nat) : string * string :=
    let delim :=
      fold_left
        (fun delim c =>
           match find_from c start url with
           | Some wdelim => Nat.min delim wdelim
           | None => delim
           end)
        ["/"%char; "?"%char; "#"%char] (String.length url) in
    (take (delim - start) (drop start url), drop delim url).

Section Parse.

(** [unicodedata.normalize('NFKC', _)], outside the modelled code. *)
Variable nfkc : string -> string.

(** [_check_bracketed_host]: [Some msg] when it raises [ValueError msg];
        it rests on the [ipaddress] module, outside the modelled code. *)
Variable check_bracketed_host : string -> option string.

Definition _checknetloc (netloc : string) : result unit :=
      if negb (nonempty netloc) || isascii netloc then Ok tt
      else
        let n := remove (fun c => Ascii.eqb c "@" || Ascii.eqb c ":"
                                  || Ascii.eqb c "#" || Ascii.eqb c "?") netloc in
        let netloc2 := nfkc n in
        if String.eqb n netloc2 then Ok tt
        else if existsb (fun c => contains c netloc2)
                  ["/"%char; "?"%char; "#"%char; "@"%char; ":"%char]
             then Raise (ValueError ("netloc '" ++ netloc
                    ++ "' contains invalid characters under NFKC normalization"))
             else Ok tt.

Definition _check_bracketed_netloc (netloc : string) : result unit :=
      let hostname_and_port := snd (rpartition "@" netloc) in
      let '(before_bracket, have_open_br, bracketed) := partition "[" hostname_and_port in
      let hostname :=
        if have_open_br then
          if nonempty before_bracket then Raise (ValueError "Invalid IPv6 URL")
          else
            let '(hostname, _, port) := partition "]" bracketed in
            if nonempty port && negb (startswith ":" port)
            then Raise (ValueError "Invalid IPv6 URL")
            else Ok hostname
        else Ok (fst (fst (partition ":" hostname_and_port))) in
      do hostname <- hostname;
      match check_bracketed_host hostname with
      | Some msg => Raise (ValueError msg)
      | None => Ok tt
      end.

(** The parts of a [SplitResult] that [scheme] and [hostname] read. *)
Record SplitResult : Type := { scheme : string; netloc : string }.

(** [urlsplit(url)], with the default [scheme=''].  The path, query and
        fragment are not computed: none of them can raise and none is read. *)
Definition urlsplit (url : string) : result SplitResult :=
      let url := lstrip c0_control_or_space url in
      let url := remove unsafe_url_byte url in
      let '(scheme, url) :=
        match find ":" url with
        | Some (S _ as i) =>
            if match url with
               | String c _ => isascii_char c && is_ascii_alpha c
               | EmptyString => false
               end
            then
              if all scheme_char (take i url)
              then (lower (take i url), drop (S i) url)
              else (EmptyString, url)
            else (EmptyString, url)
        | _ => (EmptyString, url)
        end in
      do netloc <-
        (if String.eqb (take 2 url) "//" then
           let '(netloc, _) := _splitnetloc url 2 in
           if (contains "[" netloc && negb (contains "]" netloc))
              || (contains "]" netloc && negb (contains "[" netloc))
           then Raise (ValueError "Invalid IPv6 URL")
           else
             do _ <- (if contains "[" netloc && contains "]" netloc
                      then _check_bracketed_netloc netloc else Ok tt);
             Ok netloc
         else Ok EmptyString);
      do _ <- _checknetloc netloc;
      Ok {| scheme := scheme; netloc := netloc |}.

(** [urlparse(url)]: the scheme and the network location are those of
        [urlsplit]; the parameters it splits off the path are not read. *)
Definition urlparse (url : string) : result SplitResult := urlsplit url.

(** [_hostinfo[0]] *)
Definition _hostinfo_hostname (r : SplitResult) : string :=
      let hostinfo := snd (rpartition "@" (netloc r)) in
      let '(_, have_open_br, bracketed) := partition "[" hostinfo in
      if have_open_br then fst (fst (partition "]" bracketed))
      else fst (fst (partition ":" hostinfo)).

(** The [hostname] property; [None] is Python's [None]. *)
Definition hostname (r : SplitResult) : option string :=
      let hostname := _hostinfo_hostname r in
      if negb (nonempty hostname) then None
      else
        let '(hostname, percent, zone) := partition "%" hostname in
        Some (lower hostname ++ (if percent then "%" else "") ++ zone).

End Parse.

End Urllib.

(** ** Python [repr] of a [str], as the f-string conversion [!r] computes it *)

Module PyRepr.

Import PyStr.

Definition hex_digit (n : nat) : ascii :=
    if (n <? 10)%nat then ascii_of_nat (48 + n) else ascii_of_nat (87 + n).

(** Code points below 256 that [str.isprintable] rejects. *)
Definition nonprintable (c : ascii) : bool :=
    (code c <? 32)%nat || in_range 127 160 c || (code c =? 173)%nat.

Definition escape_char (quote c : ascii) : string :=
    if Ascii.eqb c quote || Ascii.eqb c "\" then String "\" (String c EmptyString)
    else if (code c =? 9)%nat then "\t"
    else if (code c =? 10)%nat then "\n"
    else if (code c =? 13)%nat then "\r"
    else if nonprintable c
         then String "\" (String "x" (String (hex_digit (code c / 16))
                (String (hex_digit (code c mod 16)) EmptyString)))
         else String c EmptyString.

Fixpoint escape (quote : ascii) (s : string) : string :=
    match s with
    | EmptyString => EmptyString
    | String c r => escape_char quote c ++ escape quote r
    end.

(** The double quote character. *)
Definition dquote : ascii := ascii_of_nat 34.

(** Single quotes, unless the text has a single quote and no double quote. *)
Definition repr (s : string) : string :=
    let quote := if contains "'" s && negb (contains dquote s) then dquote else "'"%char in
    String quote (escape quote s ++ String quote EmptyString).

End PyRepr.

(** ** The module's data *)

(** [StyleInfo = Tuple[Optional[Path], str]] *)
Definition StyleInfo : Type := option string * string.

(** Modelled from the spec: the [CachingEnum] type of [nitpick.enums] is not
    part of the excerpt.  The spec names three caching modes: "never", "forever"
    and an explicit expiration; the module tests for [CachingEnum.EXPIRES]. *)
Inductive CachingEnum : Type := NEVER | FOREVER | EXPIRES.

(** [caching is CachingEnum.EXPIRES] *)
Definition is_EXPIRES (caching : CachingEnum) : bool :=
  match caching with EXPIRES => true | _ => false end.

(** The [expire_after] value handed to the session: an [int] or a
    [timedelta], given here in seconds. *)
Inductive ExpireAfter : Type :=
  | ExpireInt (n : Z)
  | ExpireDelta (seconds : Z).

(** [requests_cache.CachedSession], as far as the module configures it. *)
Record CachedSession : Type := {
  cache_name : string;
  expire_after : ExpireAfter;
  cache_control : bool
}.

(** A fetcher class: the attributes the module reads, and what the class's
    [fetch] does for an instance built with the given session. *)
Record StyleFetcherClass : Type := {
  class_name : string;
  requires_connection : bool;
  protocols : list string;
  domains : list string;
  fetch_method : option CachedSession -> string -> result StyleInfo
}.

(** A fetcher instance; instances are truthy objects. *)
Record StyleFetcher : Type := {
  klass : StyleFetcherClass;
  fetcher_session : option CachedSession
}.

(** [fetcher.fetch(url)] *)
Definition fetcher_fetch (fetcher : StyleFetcher) (url : string) : result StyleInfo :=
  fetch_method (klass fetcher) (fetcher_session fetcher) url.

(** One call of some fetcher's [fetch]. *)
Definition Call : Type := StyleFetcher * string.

(** ** urllib's process-wide scheme tables and the cache of
       [_register_on_urllib] *)

Record UrllibState : Type := {
  uses_relative : list string;
  uses_netloc : list string;
  (** keys held by [lru_cache], the most recently used first *)
  lru_keys : list string
}.

(** [protocol in table] *)
Definition mem (protocol : string) (table : list string) : bool :=
  existsb (String.eqb protocol) table.

(** [lru_cache()] keeps at most 128 entries. *)
Definition lru_maxsize : nat := 128.

(** The body of [_register_on_urllib]. *)
Definition _register_on_urllib_body (protocol : string) (st : UrllibState) : UrllibState :=
  let rel := if negb (mem protocol (uses_relative st))
             then (uses_relative st ++ [protocol])%list else uses_relative st in
  let loc := if negb (mem protocol (uses_netloc st))
             then (uses_netloc st ++ [protocol])%list else uses_netloc st in
  {| uses_relative := rel; uses_netloc := loc; lru_keys := lru_keys st |}.

(** [_register_on_urllib(protocol)] under [@lru_cache()]: a cached key only
    moves to the front; otherwise the body runs, the key is cached and the
    least recently used key beyond the size limit is dropped. *)
Definition _register_on_urllib (protocol : string) (st : UrllibState) : UrllibState :=
  if mem protocol (lru_keys st) then
    {| uses_relative := uses_relative st;
       uses_netloc := uses_netloc st;
       lru_keys := protocol :: List.filter (fun k => negb (String.eqb protocol k)) (lru_keys st) |}
  else
    let st' := _register_on_urllib_body protocol st in
    {| uses_relative := uses_relative st';
       uses_netloc := uses_netloc st';
       lru_keys := firstn lru_maxsize (protocol :: lru_keys st') |}.

(** The tables as [urllib.parse] defines them, with nothing cached yet. *)
Definition urllib_initial : UrllibState :=
  {| uses_relative := [""; "ftp"; "http"; "gopher"; "nntp"; "imap";
                       "wais"; "file"; "https"; "shttp"; "mms";
                       "prospero"; "rtsp"; "rtspu"; "sftp";
                       "svn"; "svn+ssh"; "ws"; "wss"];
     uses_netloc := [""; "ftp"; "http"; "gopher"; "nntp"; "telnet";
                     "imap"; "wais"; "file"; "mms"; "https"; "shttp";
                     "snews"; "prospero"; "rtsp"; "rtspu"; "rsync";
                     "svn"; "svn+ssh"; "sftp"; "nfs"; "git"; "git+ssh";
                     "ws"; "wss"];
     lru_keys := [] |}.

(** ** Building the registry *)

(** The pairs [_fetchers_to_pairs] yields for one fetcher's protocols; every
    protocol is registered on urllib before its pair is yielded. *)
Fixpoint protocol_pairs (fetcher : StyleFetcher) (protos : list string) (st : UrllibState)
  : list (string * StyleFetcher) * UrllibState :=
  match protos with
  | [] => ([], st)
  | protocol :: rest =>
      let st1 := _register_on_urllib protocol st in
      let '(pairs, st2) := protocol_pairs fetcher rest st1 in
      ((protocol, fetcher) :: pairs, st2)
  end.

(** The pairs for one fetcher's domains. *)
Definition domain_pairs (fetcher : StyleFetcher) : list (string * StyleFetcher) :=
  map (fun domain => (domain, fetcher)) (domains (klass fetcher)).

(** [_fetchers_to_pairs(fetchers)], run to the end of the generator. *)
Fixpoint _fetchers_to_pairs (fetchers : list StyleFetcher) (st : UrllibState)
  : list (string * StyleFetcher) * UrllibState :=
  match fetchers with
  | [] => ([], st)
  | fetcher :: rest =>
      let '(ppairs, st1) := protocol_pairs fetcher (protocols (klass fetcher)) st in
      let '(pairs, st2) := _fetchers_to_pairs rest st1 in
      ((ppairs ++ domain_pairs fetcher ++ pairs)%list, st2)
  end.

(** [dict(pairs)]: a later pair replaces an earlier one with the same key. *)
Definition dict (pairs : list (string * StyleFetcher)) : gmap string StyleFetcher :=
  fold_left (fun d p => <[fst p := snd p]> d) pairs ∅.

(** [_factory(klass)] of [_get_fetchers]. *)
Definition _factory (session : CachedSession) (k : StyleFetcherClass) : StyleFetcher :=
  if requires_connection k
  then {| klass := k; fetcher_session := Some session |}
  else {| klass := k; fetcher_session := None |}.

(** Modelled from the spec: [is_url] of [nitpick.generic] is not part of the
    excerpt.  The spec has an identifier count as a URL when it "parses as a
    URL with a scheme component recognized as a URL (not a bare drive-letter
    or local path)", single-letter prefixes before a colon being drive
    letters: the identifier starts with a scheme of two or more scheme
    characters, the first a letter, followed by "://". *)
Definition is_url_spec (url : string) : bool :=
  match PyStr.find ":" url with
  | Some i =>
      (2 <=? i)%nat
      && match url with
         | String c _ => PyStr.is_ascii_alpha c
         | EmptyString => false
         end
      && PyStr.all Urllib.scheme_char (PyStr.take i url)
      && PyStr.startswith "//" (PyStr.drop (S i) url)
  | None => false
  end.

Section Manager.

(** [is_url] of [nitpick.generic], not part of the excerpt. *)
Variable is_url : string -> bool.

(** [parse_cache_option] of [nitpick.style], not part of the excerpt. *)
Variable parse_cache_option : string -> CachingEnum * ExpireAfter.

Variable nfkc : string -> string.
Variable check_bracketed_host : string -> option string.

(** The fetcher classes [_get_fetchers] imports, not part of the excerpt. *)
Variables FileFetcher HttpFetcher GitHubFetcher PythonPackageFetcher : StyleFetcherClass.

(** [_get_fetchers(session)] *)
Definition _get_fetchers (session : CachedSession) (st : UrllibState)
  : gmap string StyleFetcher * UrllibState :=
  let fetchers := [_factory session FileFetcher; _factory session HttpFetcher;
                   _factory session GitHubFetcher; _factory session PythonPackageFetcher] in
  let '(pairs, st') := _fetchers_to_pairs fetchers st in
  (dict pairs, st').

Record StyleFetcherManager : Type := {
  offline : bool;
  cache_dir : string;
  cache_option : string;
  session : CachedSession;
  fetchers : gmap string StyleFetcher
}.

(** [cache_dir / "styles"] *)
Definition path_join (dir name : string) : string := dir ++ "/" ++ name.

(** The dataclass constructor followed by [__post_init__]. *)
Definition __post_init__ (offline : bool) (cache_dir cache_option : string) (st : UrllibState)
  : StyleFetcherManager * UrllibState :=
  let '(caching, expire_after) := parse_cache_option cache_option in
  let cache_control := is_EXPIRES caching in
  let session := {| cache_name := path_join cache_dir "styles";
                    expire_after := expire_after;
                    cache_control := cache_control |} in
  let '(fetchers, st') := _get_fetchers session st in
  ({| offline := offline; cache_dir := cache_dir; cache_option := cache_option;
      session := session; fetchers := fetchers |}, st').

(** [StyleFetcherManager._get_domain_scheme(url)] *)
Definition _get_domain_scheme (url : string) : result (string * string) :=
  if is_url url then
    do parsed_url <- Urllib.urlparse nfkc check_bracketed_host url;
    Ok (default "" (Urllib.hostname parsed_url), Urllib.scheme parsed_url)
  else Ok ("", "file").

(** [StyleFetcherManager.fetch(url)]: the calls made to fetchers, and the
    outcome. *)
Definition fetch (self : StyleFetcherManager) (url : string) : list Call * result StyleInfo :=
  match _get_domain_scheme url with
  | Raise e => ([], Raise e)
  | Ok (domain, scheme) =>
      let fetcher := if PyStr.nonempty domain then fetchers self !! domain else None in
      let fetcher := match fetcher with
                     | Some f => Some f
                     | None => fetchers self !! scheme
                     end in
      match fetcher with
      | None => ([], Raise (RuntimeError
                  ("URI protocol " ++ PyRepr.repr scheme ++ " is not supported")))
      | Some fetcher =>
          if offline self && requires_connection (klass fetcher)
          then ([], Ok (None, ""))
          else ([(fetcher, url)], fetcher_fetch fetcher url)
      end
  end.

End Manager.

(** ** Statement vocabulary *)

(** What it is for [fetcher] to handle the fetch of [url] under the
    dispatcher [self]: skipped when offline and the fetcher needs the
    network, delegated to the fetcher otherwise. *)
Definition handled_by (self : StyleFetcherManager) (fetcher : StyleFetcher) (url : string)
  : list Call * result StyleInfo :=
  if offline self && requires_connection (klass fetcher)
  then ([], Ok (None, ""))
  else ([(fetcher, url)], fetcher_fetch fetcher url).

(** The registry resolves the classification [(domain, scheme)] to
    [fetcher]: by a non-empty domain, or else by the scheme. *)
Definition resolves_to (registry : gmap string StyleFetcher) (domain scheme : string)
    (fetcher : StyleFetcher) : Prop :=
  (domain <> "" /\ registry !! domain = Some fetcher)
  \/ ((domain = "" \/ registry !! domain = None) /\ registry !! scheme = Some fetcher).

(** The error raised for a scheme no fetcher serves. *)
Definition unsupported_protocol (scheme : string) : exn :=
  RuntimeError ("URI protocol " ++ PyRepr.repr scheme ++ " is not supported").

(** [fetcher] claims [key] as one of its protocols or domains. *)
Definition claims (key : string) (fetcher : StyleFetcher) : Prop :=
  In key (protocols (klass fetcher)) \/ In key (domains (klass fetcher)).

(** ** Shapes of identifiers *)

(** A scheme as [urlsplit] accepts it: scheme characters, the first a letter. *)
Definition valid_scheme (s : string) : bool :=
  match s with
  | String c _ => PyStr.is_ascii_alpha c
  | EmptyString => false
  end && PyStr.all Urllib.scheme_char s.

(** A character of a plain host name: ASCII, none of the characters that
    end or structure a network location ("/", "?", "#", "@", ":", "[", "]",
    "%"), and none that [urlsplit] removes. *)
Definition host_char (c : ascii) : bool :=
  PyStr.isascii_char c
  && negb (Urllib.unsafe_url_byte c)
  && negb (PyStr.contains c "/?#@:[]%").

(** The text before the first "/" of an identifier. *)
Fixpoint first_component (s : string) : string :=
  match s with
  | EmptyString => EmptyString
  | String c r => if Ascii.eqb c "/" then EmptyString else String c (first_component r)
  end.

(** Local filesystem paths: POSIX absolute paths, paths with a Windows
    drive letter, and relative paths (no colon in the first component). *)
Inductive local_path : string -> Prop :=
  | posix_absolute (rest : string) : local_path (String "/" rest)
  | windows_drive (letter : ascii) (rest : string) :
      PyStr.is_ascii_alpha letter = true -> local_path (String letter (String ":" rest))
  | relative (path : string) :
      PyStr.contains ":" (first_component path) = false -> local_path path.

(** ** The cache policy *)

(** The [expire_after] values [requests_cache] reads as "never expires" and
    as "expires at once". *)
Definition NEVER_EXPIRE : ExpireAfter := ExpireInt (-1).
Definition EXPIRE_IMMEDIATELY : ExpireAfter := ExpireInt 0.

Section CachePolicyParser.

(** The duration a policy text spells out, in seconds, when it is a
    duration; the spec leaves the syntax of durations to the parser. *)
Variable duration_of : string -> option Z.

(** What the parser makes of a text that is neither "never", nor "forever",
    nor a duration; the spec does not say. *)
Variable otherwise : string -> CachingEnum * ExpireAfter.

(** Modelled from the spec: [parse_cache_option] of [nitpick.style] is not
    part of the excerpt.  The spec has it return [(mode, expire_after)] with
    three recognised policies: "never" is no caching, with immediate
    expiration; "forever" caches indefinitely, with no expiration; a duration
    value expires after that duration. *)
Definition parse_cache_option_spec (cache_option : string) : CachingEnum * ExpireAfter :=
  if String.eqb cache_option "never" then (NEVER, EXPIRE_IMMEDIATELY)
  else if String.eqb cache_option "forever" then (FOREVER, NEVER_EXPIRE)
  else match duration_of cache_option with
       | Some seconds => (EXPIRES, ExpireDelta seconds)
       | None => otherwise cache_option
       end.

End CachePolicyParser.

(** ** Registry and registration vocabulary *)

(** The pairs one fetcher contributes, whatever the urllib state. *)
Definition pairs_of (fetcher : StyleFetcher) : list (string * StyleFetcher) :=
  (map (fun protocol => (protocol, fetcher)) (protocols (klass fetcher))
   ++ domain_pairs fetcher)%list.

(** The fetchers of [_get_fetchers] in their construction order. *)
Definition construction_order
    (FileFetcher HttpFetcher GitHubFetcher PythonPackageFetcher : StyleFetcherClass)
    (session : CachedSession) : list StyleFetcher :=
  [_factory session FileFetcher; _factory session HttpFetcher;
   _factory session GitHubFetcher; _factory session PythonPackageFetcher].

(** [register_all ps st]: the calls [_register_on_urllib p] for the
    protocols [ps], in order. *)
Definition register_all (ps : list string) (st : UrllibState) : UrllibState :=
  fold_left (fun st p => _register_on_urllib p st) ps st.

(** No table lists a scheme twice, and every cached key is in both tables. *)
Definition tables_ok (st : UrllibState) : Prop :=
  NoDup (uses_relative st)
  /\ NoDup (uses_netloc st)
  /\ forall k, In k (lru_keys st) -> In k (uses_relative st) /\ In k (uses_netloc st).

(** An outcome that raises nothing but a [ValueError]. *)
Definition only_ValueError {A : Type} (r : result A) : Prop :=
  forall e, r = Raise e -> exists msg, e = ValueError msg.

(** The protocols [_get_fetchers] registers on urllib, in order. *)
Definition registered_protocols
    (FileFetcher HttpFetcher GitHubFetcher PythonPackageFetcher : StyleFetcherClass)
    (session : CachedSession) : list string :=
  flat_map (fun f => protocols (klass f))
    (construction_order FileFetcher HttpFetcher GitHubFetcher PythonPackageFetcher session).

(** ** The [Scheme] enumeration *)

(** [class Scheme(LowercaseStrEnum)] *)
Inductive Scheme : Type := HTTP | HTTPS | PY | PYPACKAGE | GH | GITHUB.

(** The member's name, as written in the class body. *)
Definition Scheme_name (s : Scheme) : string :=
  match s with
  | HTTP => "HTTP"
  | HTTPS => "HTTPS"
  | PY => "PY"
  | PYPACKAGE => "PYPACKAGE"
  | GH => "GH"
  | GITHUB => "GITHUB"
  end.

(** The member's value: [auto()] of a [LowercaseStrEnum] is the name in
    lower case. *)
Definition Scheme_value (s : Scheme) : string := PyStr.lower (Scheme_name s).

(** The members in definition order. *)
Definition Scheme_members : list Scheme := [HTTP; HTTPS; PY; PYPACKAGE; GH; GITHUB].

(** [Scheme(value)]: the member with that value, or [ValueError]. *)
Definition Scheme_of_value (value : string) : result Scheme :=
  match List.find (fun s => String.eqb (Scheme_value s) value) Scheme_members with
  | Some s => Ok s
  | None => Raise (ValueError (PyRepr.repr value ++ " is not a valid Scheme"))
  end.

(** ** Shapes of network locations *)

(** A character of a user-information part: ASCII, none of the delimiters
    that end a network location ("/", "?", "#"), no bracket, and none that
    [urlsplit] removes; "@" and ":" may occur. *)
Definition userinfo_char (c : ascii) : bool :=
  PyStr.isascii_char c
  && negb (Urllib.unsafe_url_byte c)
  && negb (PyStr.contains c "/?#[]").

(** ** Stub fetcher variants and a dispatcher built from them *)

Module Sample.

Definition stub_fetch (tag : string) (_ : option CachedSession) (url : string)
  : result StyleInfo := Ok (Some url, tag).

Definition FileFetcher : StyleFetcherClass :=
  {| class_name := "FileFetcher"; requires_connection := false;
     protocols := ["file"; ""]; domains := [];
     fetch_method := stub_fetch "file" |}.

Definition HttpFetcher : StyleFetcherClass :=
  {| class_name := "HttpFetcher"; requires_connection := true;
     protocols := ["http"; "https"]; domains := [];
     fetch_method := stub_fetch "http" |}.

Definition GitHubFetcher : StyleFetcherClass :=
  {| class_name := "GitHubFetcher"; requires_connection := true;
     protocols := ["github"; "gh"]; domains := ["github.com"];
     fetch_method := stub_fetch "github" |}.

Definition PythonPackageFetcher : StyleFetcherClass :=
  {| class_name := "PythonPackageFetcher"; requires_connection := false;
     protocols := ["py"; "pypackage"]; domains := [];
     fetch_method := stub_fetch "pypackage" |}.

(** A variant that also claims "https" and "github.com", to exercise
    collisions. *)
Definition MirrorFetcher : StyleFetcherClass :=
  {| class_name := "MirrorFetcher"; requires_connection := true;
     protocols := ["https"]; domains := ["github.com"];
     fetch_method := stub_fetch "mirror" |}.

Definition parse_cache_option (cache_option : string) : CachingEnum * ExpireAfter :=
  if String.eqb cache_option "never" then (NEVER, ExpireInt 0)
  else if String.eqb cache_option "forever" then (FOREVER, ExpireInt (-1))
  else (EXPIRES, ExpireDelta 3600).

(** A duration reader that knows two durations, and a parser fallback. *)
Definition duration_of (text : string) : option Z :=
  if String.eqb text "1 hour" then Some 3600%Z
  else if String.eqb text "2 days" then Some 172800%Z
  else None.

Definition otherwise (_ : string) : CachingEnum * ExpireAfter :=
  (EXPIRES, ExpireDelta 3600).

(** The session of a manager built for a policy text. *)
Definition session_for (cache_option : string) : CachedSession :=
  session (fst (__post_init__ (parse_cache_option_spec duration_of otherwise)
                  FileFetcher HttpFetcher GitHubFetcher PythonPackageFetcher
                  false "/tmp/cache" cache_option urllib_initial)).

Definition manager (offline : bool) : StyleFetcherManager :=
  fst (__post_init__ parse_cache_option
         FileFetcher HttpFetcher GitHubFetcher PythonPackageFetcher
         offline "/tmp/cache" "forever" urllib_initial).

Definition classify : string -> result (string * string) :=
  _get_domain_scheme is_url_spec (fun s => s) (fun _ => None).

(** The instances the dispatcher holds. *)
Definition http : StyleFetcher := _factory (session (manager false)) HttpFetcher.
Definition github : StyleFetcher := _factory (session (manager false)) GitHubFetcher.
Definition mirror : StyleFetcher := _factory (session (manager false)) MirrorFetcher.

(** A registry whose last variant collides with two earlier ones. *)
Definition colliding_registry : gmap string StyleFetcher :=
  fst (_get_fetchers FileFetcher HttpFetcher GitHubFetcher MirrorFetcher
         (session (manager false)) urllib_initial).

Definition fetch : StyleFetcherManager -> string -> list Call * result StyleInfo :=
  fetch is_url_spec (fun s => s) (fun _ => None).

End Sample.

(** ** Facts about the string operations *)

Module PyStrFacts.

Import PyStr.

Lemma app_cons (c : ascii) (s t : string) : String c s ++ t = String c (s ++ t).
Proof. reflexivity. Qed.

Lemma app_nil_l (t : string) : "" ++ t = t.
Proof. reflexivity. Qed.

Ltac sapp := rewrite ?app_cons, ?app_nil_l; simpl.

Lemma length_app (s t : string) :
  String.length (s ++ t) = (String.length s + String.length t)%nat.
Proof. induction s as [|c s IH]; sapp; [reflexivity | now rewrite IH]. Qed.

Lemma take_app_length (s t : string) : take (String.length s) (s ++ t) = s.
Proof. induction s as [|c s IH]; sapp; [now destruct t | now rewrite IH]. Qed.

Lemma drop_app_length (s t : string) : drop (String.length s) (s ++ t) = t.
Proof. induction s as [|c s IH]; sapp; [reflexivity | exact IH]. Qed.

Lemma remove_app (p : ascii -> bool) (s t : string) :
  remove p (s ++ t) = remove p s ++ remove p t.
Proof.
  induction s as [|c s IH]; sapp; [reflexivity|].
  destruct (p c); simpl; now rewrite IH.
Qed.

Lemma remove_none (p : ascii -> bool) (s : string) :
  all (fun c => negb (p c)) s = true -> remove p s = s.
Proof.
  induction s as [|c s IH]; sapp; [reflexivity|].
  intros H. apply andb_true_iff in H as [Hc Hs].
  apply negb_true_iff in Hc. rewrite Hc. now rewrite IH.
Qed.

Lemma all_impl (p q : ascii -> bool) (s : string) :
  (forall c, p c = true -> q c = true) -> all p s = true -> all q s = true.
Proof.
  intros Hpq. induction s as [|c s IH]; sapp; [reflexivity|].
  intros H. apply andb_true_iff in H as [Hc Hs].
  now rewrite (Hpq c Hc), IH.
Qed.

Lemma all_not_contains (p : ascii -> bool) (c : ascii) (s : string) :
  p c = false -> all p s = true -> contains c s = false.
Proof.
  intros Hc. induction s as [|d s IH]; sapp; [reflexivity|].
  intros H. apply andb_true_iff in H as [Hd Hs].
  rewrite (IH Hs), orb_false_r. apply Ascii.eqb_neq. intros ->. congruence.
Qed.

Lemma find_not_contains (c : ascii) (s : string) :
  contains c s = false -> find c s = None.
Proof.
  induction s as [|d s IH]; sapp; [reflexivity|].
  intros H. apply orb_false_iff in H as [Hd Hs].
  now rewrite Hd, (IH Hs).
Qed.

Lemma rfind_not_contains (c : ascii) (s : string) :
  contains c s = false -> rfind c s = None.
Proof.
  induction s as [|d s IH]; sapp; [reflexivity|].
  intros H. apply orb_false_iff in H as [Hd Hs].
  now rewrite (IH Hs), Hd.
Qed.

Lemma find_app_skip (c : ascii) (s t : string) :
  contains c s = false ->
  find c (s ++ t) = option_map (fun i => (String.length s + i)%nat) (find c t).
Proof.
  induction s as [|d s IH]; sapp.
  - intros _. now destruct (find c t).
  - intros H. apply orb_false_iff in H as [Hd Hs].
    rewrite Hd, (IH Hs). now destruct (find c t).
Qed.

Lemma partition_not_contains (c : ascii) (s : string) :
  contains c s = false -> partition c s = (s, false, EmptyString).
Proof. intros H. unfold partition. now rewrite find_not_contains. Qed.

Lemma rpartition_not_contains (c : ascii) (s : string) :
  contains c s = false -> rpartition c s = (EmptyString, false, s).
Proof. intros H. unfold rpartition. now rewrite rfind_not_contains. Qed.

Lemma isascii_app (s t : string) : isascii (s ++ t) = isascii s && isascii t.
Proof. induction s as [|c s IH]; sapp; [reflexivity | now rewrite IH, andb_assoc]. Qed.

Lemma app_nil_r (s : string) : s ++ "" = s.
Proof. induction s as [|c s IH]; sapp; [reflexivity | now rewrite IH]. Qed.

End PyStrFacts.

(** ** Facts about characters and about urllib.parse *)

Module CharFacts.

Import PyStr Urllib.

Ltac by_char c := destruct c as [[] [] [] [] [] [] [] []]; vm_compute; intuition congruence.

Lemma alpha_kept (c : ascii) :
  is_ascii_alpha c = true ->
  c0_control_or_space c = false /\ isascii_char c && is_ascii_alpha c = true.
Proof. by_char c. Qed.

Lemma scheme_char_safe (c : ascii) :
  scheme_char c = true -> negb (unsafe_url_byte c) = true.
Proof. by_char c. Qed.

Lemma host_char_safe (c : ascii) :
  host_char c = true -> negb (unsafe_url_byte c) = true.
Proof. by_char c. Qed.

Lemma host_char_ascii (c : ascii) : host_char c = true -> isascii_char c = true.
Proof. by_char c. Qed.

Lemma lower_scheme_char (c : ascii) :
  scheme_char c = true -> scheme_char (lower_char c) = true.
Proof. by_char c. Qed.

End CharFacts.

Module UrllibFacts.

Import PyStr Urllib PyStrFacts CharFacts.

Lemma isascii_all (s : string) : isascii s = all isascii_char s.
Proof. induction s as [|c s IH]; simpl; [reflexivity | now rewrite IH]. Qed.

Lemma find_colon_after_scheme (scheme rest : string) :
  all scheme_char scheme = true ->
  find ":" (scheme ++ String ":" rest) = Some (String.length scheme).
Proof.
  intros Hs. rewrite find_app_skip.
  - simpl. f_equal. lia.
  - now apply (all_not_contains scheme_char).
Qed.

(** The network location of "//host/..." is the host, when the host has
    none of the delimiters. *)
Lemma _splitnetloc_host (host rest : string) :
  all host_char host = true ->
  fst (_splitnetloc (String "/" (String "/" (host ++ String "/" rest))) 2) = host.
Proof.
  intros Hh. unfold _splitnetloc, find_from. cbn [fold_left drop fst].
  assert (forall c, host_char c = false ->
            find c (host ++ String "/" rest)
            = option_map (fun i => (String.length host + i)%nat) (find c (String "/" rest)))
    as Hfind.
  { intros c Hc. apply find_app_skip. now apply (all_not_contains host_char). }
  rewrite !Hfind by reflexivity. simpl find.
  set (n := String.length host).
  assert (forall d, match option_map (fun i => (2 + i)%nat)
                       (option_map (fun i => (n + i)%nat) (option_map S d)) with
                    | Some w => Nat.min (2 + n) w
                    | None => (2 + n)%nat
                    end = (2 + n)%nat) as Hmin.
  { intros [k|]; simpl; lia. }
  cbn [option_map]. rewrite Nat.add_0_r.
  rewrite Nat.min_r by (simpl; rewrite length_app; simpl; lia).
  rewrite !Hmin.
  replace (2 + n - 2)%nat with n by lia. apply take_app_length.
Qed.

Lemma drop_past_colon (scheme rest : string) :
  drop (S (String.length scheme)) (scheme ++ String ":" rest) = rest.
Proof. induction scheme as [|c s IH]; sapp; [reflexivity | exact IH]. Qed.

Lemma host_lacks (c : ascii) (host : string) :
  host_char c = false -> all host_char host = true -> contains c host = false.
Proof. apply all_not_contains. Qed.

Section Parse.

Variable nfkc : string -> string.
Variable check_bracketed_host : string -> option string.

(** [urlsplit] on scheme://host/path. *)
Lemma urlsplit_url (scheme host path : string) :
  valid_scheme scheme = true ->
  all host_char host = true ->
  urlsplit nfkc check_bracketed_host (scheme ++ "://" ++ host ++ "/" ++ path)
  = Ok {| Urllib.scheme := lower scheme; netloc := host |}.
Proof.
  intros Hs Hh. unfold valid_scheme in Hs.
  destruct scheme as [|c sch]; [discriminate|].
  apply andb_true_iff in Hs as [Hc Hs].
  destruct (alpha_kept c Hc) as [Hc0 Hc1].
  change (String c sch ++ "://" ++ host ++ "/" ++ path)
    with (String c (sch ++ String ":" (String "/" (String "/" (host ++ String "/" path))))).
  unfold urlsplit. cbn [lstrip]. rewrite Hc0.
  assert (remove unsafe_url_byte
            (String c (sch ++ String ":" (String "/" (String "/" (host ++ String "/" path)))))
          = String c sch ++ String ":" (String "/" (String "/"
              (host ++ String "/" (remove unsafe_url_byte path))))) as ->.
  { change (String c (sch ++ ?r)) with (String c sch ++ r).
    rewrite remove_app.
    rewrite (remove_none _ (String c sch))
      by (eapply all_impl; [apply scheme_char_safe | exact Hs]).
    f_equal. cbn [remove unsafe_url_byte]. simpl. do 3 f_equal.
    rewrite remove_app.
    rewrite (remove_none _ host) by (eapply all_impl; [apply host_char_safe | exact Hh]).
    reflexivity. }
  set (path' := remove unsafe_url_byte path).
  rewrite find_colon_after_scheme by exact Hs.
  cbn [String.length]. rewrite app_cons, Hc1.
  rewrite <- app_cons.
  change (S (String.length sch)) with (String.length (String c sch)).
  rewrite take_app_length, Hs, drop_past_colon.
  cbn [take]. rewrite String.eqb_refl.
  pose proof (_splitnetloc_host host path' Hh) as Hnet.
  destruct (_splitnetloc _ 2) as [nl rest]. cbn [fst] in Hnet. subst nl.
  rewrite !(host_lacks _ host) by (reflexivity || exact Hh).
  cbn [andb orb negb rbind].
  unfold _checknetloc.
  replace (isascii host) with true.
  - rewrite orb_true_r. reflexivity.
  - symmetry. rewrite isascii_all. eapply all_impl; [apply host_char_ascii | exact Hh].
Qed.

(** The [hostname] of a plain host is the host in lower case. *)
Lemma hostname_plain (scheme host : string) :
  all host_char host = true ->
  default "" (hostname {| Urllib.scheme := scheme; netloc := host |}) = lower host.
Proof.
  intros Hh. unfold hostname, _hostinfo_hostname. cbn [netloc].
  rewrite (rpartition_not_contains "@") by now apply host_lacks.
  cbn [snd]. rewrite (partition_not_contains "[") by now apply host_lacks.
  rewrite (partition_not_contains ":") by now apply host_lacks.
  cbn [fst]. destruct host as [|c h]; [reflexivity|].
  cbn [nonempty negb].
  rewrite (partition_not_contains "%") by now apply host_lacks.
  cbn [default]. now rewrite !app_nil_r.
Qed.

End Parse.

End UrllibFacts.

(** ** The scheme of a classification and its [repr] *)

Module SchemeFacts.

Import PyStr Urllib PyRepr CharFacts PyStrFacts.

Lemma escape_scheme_char (c : ascii) :
  scheme_char c = true -> escape_char "'" c = String c EmptyString.
Proof. by_char c. Qed.

Lemma escape_plain (s : string) :
  all scheme_char s = true -> escape "'" s = s.
Proof.
  induction s as [|c s IH]; simpl; [reflexivity|].
  intros H. apply andb_true_iff in H as [Hc Hs].
  now rewrite (escape_scheme_char c Hc), (IH Hs).
Qed.

(** The [repr] of a text made of scheme characters is the text in single
    quotes. *)
Lemma repr_plain (s : string) :
  all scheme_char s = true -> repr s = "'" ++ s ++ "'".
Proof.
  intros H. unfold repr.
  rewrite (all_not_contains scheme_char "'" s) by (reflexivity || exact H).
  cbn [andb]. now rewrite escape_plain.
Qed.

Lemma lower_plain (s : string) :
  all scheme_char s = true -> all scheme_char (lower s) = true.
Proof.
  induction s as [|c s IH]; simpl; [reflexivity|].
  intros H. apply andb_true_iff in H as [Hc Hs].
  now rewrite (lower_scheme_char c Hc), (IH Hs).
Qed.

Lemma rbind_Ok_inv {A B : Type} (r : result A) (k : A -> result B) (b : B) :
  rbind r k = Ok b -> exists a, r = Ok a /\ k a = Ok b.
Proof. destruct r as [a | e]; cbn; [eauto | discriminate]. Qed.

Section Parse.

Variable is_url : string -> bool.
Variable nfkc : string -> string.
Variable check_bracketed_host : string -> option string.

Lemma urlsplit_scheme_plain (url : string) (r : SplitResult) :
  urlsplit nfkc check_bracketed_host url = Ok r ->
  all scheme_char (Urllib.scheme r) = true.
Proof.
  unfold urlsplit.
  set (u := remove unsafe_url_byte (lstrip c0_control_or_space url)).
  match goal with |- context [let '(_, _) := ?m in _] =>
    assert (all scheme_char (fst m) = true) as Hm; [|destruct m as [scheme0 rest]] end.
  { destruct (find ":" u) as [[|i]|]; try reflexivity.
    destruct (match u with String c _ => _ | EmptyString => false end); try reflexivity.
    destruct (all scheme_char (take (S i) u)) eqn:Hall; [|reflexivity].
    cbn [fst]. now apply lower_plain. }
  intros H. apply rbind_Ok_inv in H as (netloc & _ & H).
  apply rbind_Ok_inv in H as (_ & _ & H). injection H as <-. exact Hm.
Qed.

(** The scheme of every classification is made of scheme characters. *)
Lemma classified_scheme_plain (url domain scheme : string) :
  _get_domain_scheme is_url nfkc check_bracketed_host url = Ok (domain, scheme) ->
  all scheme_char scheme = true.
Proof.
  unfold _get_domain_scheme, urlparse. destruct (is_url url).
  - intros H. apply rbind_Ok_inv in H as (r & Hr & H). injection H as _ <-.
    now apply urlsplit_scheme_plain with url.
  - intros H. injection H as _ <-. reflexivity.
Qed.

End Parse.

End SchemeFacts.

(** ** The classifier *)

Lemma only_ValueError_Ok {A : Type} (a : A) : only_ValueError (Ok a).
Proof. intros e H. discriminate. Qed.

Lemma only_ValueError_Raise {A : Type} (msg : string) :
  only_ValueError (@Raise A (ValueError msg)).
Proof. intros e H. inversion H. now exists msg. Qed.


Create HintDb value_error.

#[local] Hint Resolve only_ValueError_Ok only_ValueError_Raise : value_error.

Section Classifier.

Variable is_url : string -> bool.
Variable nfkc : string -> string.
Variable check_bracketed_host : string -> option string.

Local Abbreviation classify := (_get_domain_scheme is_url nfkc check_bracketed_host).
Local Abbreviation urlparse := (Urllib.urlparse nfkc check_bracketed_host).




Lemma classify_not_url (url : string) :
  is_url url = false -> classify url = Ok ("", "file").
Proof. intros H. unfold _get_domain_scheme. now rewrite H. Qed.

(** C5, as the code has it: a URL scheme://host/path that [is_url]
    recognises, with a well-formed scheme and a plain ASCII host name, is
    classified as the host and the scheme, both in lower case. *)
Theorem classify_url_lowercases (scheme host path : string) :
  valid_scheme scheme = true ->
  PyStr.all host_char host = true ->
  is_url (scheme ++ "://" ++ host ++ "/" ++ path) = true ->
  classify (scheme ++ "://" ++ host ++ "/" ++ path)
  = Ok (PyStr.lower host, PyStr.lower scheme).
Proof.
  intros Hs Hh Hu. unfold _get_domain_scheme, Urllib.urlparse. rewrite Hu.
  rewrite UrllibFacts.urlsplit_url by assumption.
  cbn [rbind Urllib.scheme]. now rewrite UrllibFacts.hostname_plain.
Qed.


(** An unmatched bracket in the network location makes [urlparse] raise,
    whatever else [is_url] accepts. *)
Lemma classify_open_bracket :
  is_url "http://server.com[/abc" = true ->
  classify "http://server.com[/abc" = Raise (ValueError "Invalid IPv6 URL").
Proof. intros H. unfold _get_domain_scheme. rewrite H. reflexivity. Qed.

End Classifier.

Lemma classify_url_lowercases_witness :
  Sample.classify "HTTP://Server.COM/abc" = Ok ("server.com", "http").
Proof.
  apply (classify_url_lowercases is_url_spec (fun s => s) (fun _ => None)
           "HTTP" "Server.COM" "abc"); reflexivity.
Defined.

(** No [is_url] makes the classifier return the host as written: the host
    of "http://Server.com/abc" comes back in lower case, or not at all. *)
Lemma classify_host_case_counterexample :
  ~ (exists (is_url : string -> bool) (nfkc : string -> string)
            (check_bracketed_host : string -> option string),
        forall scheme host path,
          valid_scheme scheme = true ->
          PyStr.all host_char host = true ->
          _get_domain_scheme is_url nfkc check_bracketed_host
            (scheme ++ "://" ++ host ++ "/" ++ path)
          = Ok (host, PyStr.lower scheme)).
Proof.
  intros (is_url & nfkc & cbh & H).
  specialize (H "http" "Server.com" "abc" eq_refl eq_refl).
  change ("http" ++ "://" ++ "Server.com" ++ "/" ++ "abc") with "http://Server.com/abc" in H.
  unfold _get_domain_scheme in H.
  destruct (is_url "http://Server.com/abc"); vm_compute in H; discriminate.
Qed.



Lemma is_url_spec_local_path (path : string) :
  local_path path -> is_url_spec path = false.
Proof.
  assert (forall s i, PyStr.contains ":" (first_component s) = false ->
                      PyStr.find ":" s = Some i ->
                      PyStr.all Urllib.scheme_char (PyStr.take i s) = false) as Hrel.
  { induction s as [|a r IH]; intros i Hc Hf; [discriminate|].
    cbn [first_component] in Hc. cbn [PyStr.find] in Hf.
    destruct (Ascii.eqb a "/") eqn:Ha.
    - apply Ascii.eqb_eq in Ha. subst a. cbn in Hf.
      destruct (PyStr.find ":" r); [|discriminate]. injection Hf as <-. reflexivity.
    - cbn [PyStr.contains] in Hc. apply orb_false_iff in Hc as [Hc1 Hc2].
      rewrite Hc1 in Hf. destruct (PyStr.find ":" r) as [j|] eqn:Hj; [|discriminate].
      injection Hf as <-. cbn [PyStr.take PyStr.all].
      rewrite (IH j Hc2 eq_refl). apply andb_false_r. }
  intros [rest | letter rest Hl | p Hp]; unfold is_url_spec.
  - cbn [PyStr.find]. change (Ascii.eqb ":" "/") with false. cbn iota.
    destruct (PyStr.find ":" rest); [|reflexivity]. cbn [option_map].
    now rewrite andb_false_r.
  - cbn [PyStr.find]. rewrite Ascii.eqb_refl.
    destruct (Ascii.eqb ":" letter); reflexivity.
  - destruct (PyStr.find ":" p) as [i|] eqn:Hf; [|reflexivity].
    rewrite (Hrel p i Hp Hf). now rewrite andb_false_r.
Qed.

(** C4: with [is_url] as the spec describes it, the listed identifiers are
    classified as listed, and every local path (POSIX absolute, Windows
    drive letter, relative) is classified [("", "file")]; a single letter
    before a colon is never taken for a scheme. *)
Theorem classify_local_paths (nfkc : string -> string)
    (check_bracketed_host : string -> option string) :
  _get_domain_scheme is_url_spec nfkc check_bracketed_host "/abc" = Ok ("", "file")
  /\ _get_domain_scheme is_url_spec nfkc check_bracketed_host "file:///abc" = Ok ("", "file")
  /\ _get_domain_scheme is_url_spec nfkc check_bracketed_host "c:\abc" = Ok ("", "file")
  /\ _get_domain_scheme is_url_spec nfkc check_bracketed_host "c:/abc" = Ok ("", "file")
  /\ _get_domain_scheme is_url_spec nfkc check_bracketed_host "http://server.com/abc"
     = Ok ("server.com", "http")
  /\ (forall path, local_path path ->
        _get_domain_scheme is_url_spec nfkc check_bracketed_host path = Ok ("", "file")).
Proof.
  repeat split; try reflexivity.
  intros path Hp. apply classify_not_url. now apply is_url_spec_local_path.
Qed.

Lemma classify_local_paths_witness :
  Sample.classify "C:\Users\me\style.toml" = Ok ("", "file")
  /\ Sample.classify "../styles/python.toml" = Ok ("", "file").
Proof.
  split.
  - apply (proj2 (proj2 (proj2 (proj2 (proj2
             (classify_local_paths (fun s => s) (fun _ => None))))))).
    exact (windows_drive "C" "\Users\me\style.toml" eq_refl).
  - apply (proj2 (proj2 (proj2 (proj2 (proj2
             (classify_local_paths (fun s => s) (fun _ => None))))))).
    apply relative. reflexivity.
Defined.

(** ** The dispatcher *)

Section Dispatch.

Variable is_url : string -> bool.
Variable nfkc : string -> string.
Variable check_bracketed_host : string -> option string.

Local Abbreviation classify := (_get_domain_scheme is_url nfkc check_bracketed_host).
Local Abbreviation dispatch := (fetch is_url nfkc check_bracketed_host).

(** With a non-empty domain that has an entry, the entry's fetcher handles
    the fetch, whatever the scheme is bound to. *)
Lemma fetch_by_domain (self : StyleFetcherManager) (url domain scheme : string)
    (fd : StyleFetcher) :
  classify url = Ok (domain, scheme) ->
  domain <> "" ->
  fetchers self !! domain = Some fd ->
  dispatch self url = handled_by self fd url.
Proof.
  intros Hc Hd Hl. unfold fetch, handled_by. rewrite Hc.
  destruct domain as [|c d]; [congruence|]. cbn [PyStr.nonempty].
  now rewrite Hl.
Qed.

(** Without a usable domain entry the scheme's fetcher handles the fetch. *)
Lemma fetch_by_scheme (self : StyleFetcherManager) (url domain scheme : string)
    (fs : StyleFetcher) :
  classify url = Ok (domain, scheme) ->
  domain = "" \/ fetchers self !! domain = None ->
  fetchers self !! scheme = Some fs ->
  dispatch self url = handled_by self fs url.
Proof.
  intros Hc Hd Hl. unfold fetch, handled_by. rewrite Hc.
  destruct Hd as [-> | Hd].
  - cbn [PyStr.nonempty]. now rewrite Hl.
  - rewrite Hd. destruct (PyStr.nonempty domain); now rewrite Hl.
Qed.

Lemma fetch_resolved (self : StyleFetcherManager) (url domain scheme : string)
    (f : StyleFetcher) :
  classify url = Ok (domain, scheme) ->
  resolves_to (fetchers self) domain scheme f ->
  dispatch self url = handled_by self f url.
Proof.
  intros Hc [[Hd Hl] | [Hd Hl]].
  - eapply fetch_by_domain; eauto.
  - eapply fetch_by_scheme; eauto.
Qed.

Lemma fetch_unresolved (self : StyleFetcherManager) (url domain scheme : string) :
  classify url = Ok (domain, scheme) ->
  fetchers self !! domain = None ->
  fetchers self !! scheme = None ->
  dispatch self url = ([], Raise (unsupported_protocol scheme)).
Proof.
  intros Hc Hd Hs. unfold fetch. rewrite Hc, Hd, Hs.
  now destruct (PyStr.nonempty domain).
Qed.

(** Every outcome of [fetch] with a classified identifier falls in one of
    two cases: nothing resolves and the error is raised, or some fetcher
    resolves and handles the fetch. *)
Lemma fetch_cases (self : StyleFetcherManager) (url domain scheme : string) :
  classify url = Ok (domain, scheme) ->
  dispatch self url = ([], Raise (unsupported_protocol scheme))
  \/ exists f, resolves_to (fetchers self) domain scheme f
               /\ dispatch self url = handled_by self f url.
Proof.
  intros Hc.
  destruct (fetchers self !! domain) as [fd|] eqn:Hd.
  - destruct domain as [|c d].
    + destruct (fetchers self !! scheme) as [fs|] eqn:Hs.
      * right. exists fs. split; [right; auto|]. eapply fetch_by_scheme; eauto.
      * left. unfold fetch. rewrite Hc. cbn [PyStr.nonempty]. now rewrite Hs.
    + right. exists fd. split; [left; split; [discriminate|auto]|].
      eapply fetch_by_domain; eauto.
  - destruct (fetchers self !! scheme) as [fs|] eqn:Hs.
    + right. exists fs. split; [right; auto|]. eapply fetch_by_scheme; eauto.
    + left. eapply fetch_unresolved; eauto.
Qed.

(** C1: for an identifier classified with a non-empty domain, the fetcher
    is looked up by domain first: an entry under the domain handles the
    fetch even when the scheme has an entry too, and the entry under the
    scheme handles it only when the domain has none. *)
Theorem fetch_domain_before_scheme (self : StyleFetcherManager)
    (url domain scheme : string) :
  classify url = Ok (domain, scheme) ->
  domain <> "" ->
  (forall fd fs, fetchers self !! domain = Some fd ->
                 fetchers self !! scheme = Some fs ->
                 dispatch self url = handled_by self fd url)
  /\ (forall fd, fetchers self !! domain = Some fd ->
                 dispatch self url = handled_by self fd url)
  /\ (forall fs, fetchers self !! domain = None ->
                 fetchers self !! scheme = Some fs ->
                 dispatch self url = handled_by self fs url).
Proof.
  intros Hc Hd. repeat split.
  - intros fd fs Hfd _. eapply fetch_by_domain; eauto.
  - intros fd Hfd. eapply fetch_by_domain; eauto.
  - intros fs Hnone Hfs. eapply fetch_by_scheme; eauto.
Qed.

(** C2: offline, an identifier that resolves to a fetcher requiring a
    connection gives [(None, "")]: no fetcher is called and nothing is
    raised. *)
Theorem fetch_offline_skips (self : StyleFetcherManager) (url domain scheme : string)
    (f : StyleFetcher) :
  offline self = true ->
  classify url = Ok (domain, scheme) ->
  resolves_to (fetchers self) domain scheme f ->
  requires_connection (klass f) = true ->
  dispatch self url = ([], Ok (None, "")).
Proof.
  intros Hoff Hc Hres Hreq.
  rewrite (fetch_resolved _ _ _ _ _ Hc Hres).
  unfold handled_by. now rewrite Hoff, Hreq.
Qed.

(** C3: when neither the classified domain nor the classified scheme has a
    registry entry, [fetch] raises the unsupported-protocol error, whose
    message holds the [repr] of the scheme, which is the scheme in single
    quotes; no fetcher is called. *)
Theorem fetch_unsupported_protocol (self : StyleFetcherManager)
    (url domain scheme : string) :
  classify url = Ok (domain, scheme) ->
  fetchers self !! domain = None ->
  fetchers self !! scheme = None ->
  dispatch self url
  = ([], Raise (RuntimeError
                  ("URI protocol " ++ PyRepr.repr scheme ++ " is not supported")))
  /\ PyRepr.repr scheme = "'" ++ scheme ++ "'".
Proof.
  intros Hc Hd Hs. split; [now apply fetch_unresolved with domain|].
  eapply SchemeFacts.repr_plain, SchemeFacts.classified_scheme_plain, Hc.
Qed.

(** C10: the unsupported-protocol check comes before the offline check.  An
    unresolved identifier raises the error whether the dispatcher is offline
    or not, and a fetch that returns without calling any fetcher is an
    offline skip of an identifier that resolved to a registered fetcher. *)
Theorem fetch_unsupported_before_offline (self : StyleFetcherManager)
    (url domain scheme : string) :
  classify url = Ok (domain, scheme) ->
  (fetchers self !! domain = None ->
   fetchers self !! scheme = None ->
   offline self = true ->
   dispatch self url = ([], Raise (unsupported_protocol scheme)))
  /\ (forall info : StyleInfo,
        dispatch self url = ([], Ok info) ->
        info = (None, "")
        /\ offline self = true
        /\ exists f, resolves_to (fetchers self) domain scheme f
                     /\ requires_connection (klass f) = true).
Proof.
  intros Hc. split.
  - intros Hd Hs _. eapply fetch_unresolved; eauto.
  - intros info Hf.
    destruct (fetch_cases self url domain scheme Hc) as [He | [f [Hres Hh]]].
    + rewrite He in Hf. discriminate.
    + rewrite Hh in Hf. unfold handled_by in Hf.
      destruct (offline self) eqn:Hoff; cbn in Hf.
      * destruct (requires_connection (klass f)) eqn:Hreq; [|discriminate].
        inversion Hf; subst. repeat split; eauto.
      * discriminate.
Qed.

End Dispatch.

Lemma fetch_domain_before_scheme_witness :
  Sample.fetch (Sample.manager false) "https://github.com/a/b"
  = handled_by (Sample.manager false) Sample.github "https://github.com/a/b".
Proof.
  refine (proj1 (fetch_domain_before_scheme is_url_spec (fun s => s) (fun _ => None)
                   (Sample.manager false) "https://github.com/a/b" "github.com" "https" _ _)
            Sample.github Sample.http _ _).
  - reflexivity.
  - discriminate.
  - vm_compute. reflexivity.
  - vm_compute. reflexivity.
Defined.

Lemma fetch_offline_skips_witness :
  Sample.fetch (Sample.manager true) "https://github.com/a/b" = ([], Ok (None, "")).
Proof.
  refine (fetch_offline_skips is_url_spec (fun s => s) (fun _ => None)
            (Sample.manager true) "https://github.com/a/b" "github.com" "https"
            Sample.github _ _ _ _).
  - reflexivity.
  - reflexivity.
  - left. split; [discriminate | vm_compute; reflexivity].
  - reflexivity.
Defined.

Lemma fetch_unsupported_protocol_witness :
  Sample.fetch (Sample.manager false) "ftp://example.org/a.toml"
  = ([], Raise (RuntimeError "URI protocol 'ftp' is not supported"))
  /\ PyRepr.repr "ftp" = "'ftp'".
Proof.
  refine (fetch_unsupported_protocol is_url_spec (fun s => s) (fun _ => None)
            (Sample.manager false) "ftp://example.org/a.toml" "example.org" "ftp" _ _ _).
  - reflexivity.
  - vm_compute. reflexivity.
  - vm_compute. reflexivity.
Defined.

Lemma fetch_unsupported_before_offline_witness :
  Sample.fetch (Sample.manager true) "ftp://example.org/a.toml"
  = ([], Raise (unsupported_protocol "ftp"))
  /\ offline (Sample.manager true) = true
  /\ exists f, resolves_to (fetchers (Sample.manager true)) "github.com" "https" f
               /\ requires_connection (klass f) = true.
Proof.
  split.
  - refine (proj1 (fetch_unsupported_before_offline is_url_spec (fun s => s) (fun _ => None)
                     (Sample.manager true) "ftp://example.org/a.toml" "example.org" "ftp" _)
              _ _ _).
    + reflexivity.
    + vm_compute. reflexivity.
    + vm_compute. reflexivity.
    + reflexivity.
  - refine (proj2 (proj2 (fetch_unsupported_before_offline is_url_spec (fun s => s)
                            (fun _ => None) (Sample.manager true)
                            "https://github.com/a/b" "github.com" "https" _)
                     (None, "") _)).
    + reflexivity.
    + vm_compute. reflexivity.
Defined.

(** ** Construction: the cache session and the registry *)

(** Lookup in [dict] started from any mapping: keys absent from the pairs
    keep their binding. *)
Lemma dict_fold_lookup_notin (pairs : list (string * StyleFetcher))
    (d : gmap string StyleFetcher) (key : string) :
  ~ In key (map fst pairs) ->
  fold_left (fun d p => <[fst p := snd p]> d) pairs d !! key = d !! key.
Proof.
  revert d. induction pairs as [|[k v] pairs IH]; intros d Hnotin; [reflexivity|].
  cbn [fold_left fst snd]. rewrite IH.
  - apply lookup_insert_ne. intros ->. apply Hnotin. now left.
  - intros Hin. apply Hnotin. now right.
Qed.

(** The last pair with a given key decides its binding. *)
Lemma dict_lookup_last (before after : list (string * StyleFetcher))
    (key : string) (v : StyleFetcher) :
  ~ In key (map fst after) ->
  dict (before ++ (key, v) :: after)%list !! key = Some v.
Proof.
  intros Hnotin. unfold dict. rewrite fold_left_app. cbn [fold_left fst snd].
  rewrite dict_fold_lookup_notin by assumption.
  apply lookup_insert_eq.
Qed.

Lemma dict_lookup_unclaimed (pairs : list (string * StyleFetcher)) (key : string) :
  ~ In key (map fst pairs) -> dict pairs !! key = None.
Proof.
  intros H. unfold dict. rewrite dict_fold_lookup_notin by assumption.
  apply lookup_empty.
Qed.

(** A key among the pairs has a last occurrence. *)
Lemma last_occurrence (pairs : list (string * StyleFetcher)) (key : string) :
  In key (map fst pairs) ->
  exists before v after,
    pairs = (before ++ (key, v) :: after)%list /\ ~ In key (map fst after).
Proof.
  induction pairs as [|[k v] pairs IH]; intros Hin; [destruct Hin|].
  destruct (in_dec string_dec key (map fst pairs)) as [Hlater | Hnot].
  - destruct (IH Hlater) as (before & v' & after & -> & Hn).
    exists ((k, v) :: before), v', after. split; [reflexivity | assumption].
  - destruct Hin as [Heq | Hin]; [|contradiction].
    cbn in Heq. subst k. exists [], v, pairs. split; [reflexivity | assumption].
Qed.

Lemma protocol_pairs_fst (fetcher : StyleFetcher) (protos : list string) (st : UrllibState) :
  fst (protocol_pairs fetcher protos st) = map (fun protocol => (protocol, fetcher)) protos.
Proof.
  revert st. induction protos as [|p ps IH]; intros st; [reflexivity|].
  cbn [protocol_pairs]. specialize (IH (_register_on_urllib p st)).
  destruct (protocol_pairs fetcher ps (_register_on_urllib p st)) as [pairs st2].
  cbn in *. now rewrite IH.
Qed.

Lemma _fetchers_to_pairs_fst (fs : list StyleFetcher) (st : UrllibState) :
  fst (_fetchers_to_pairs fs st) = flat_map pairs_of fs.
Proof.
  revert st. induction fs as [|f fs IH]; intros st; [reflexivity|].
  cbn [_fetchers_to_pairs flat_map].
  pose proof (protocol_pairs_fst f (protocols (klass f)) st) as Hp.
  destruct (protocol_pairs f (protocols (klass f)) st) as [ppairs st1].
  specialize (IH st1). destruct (_fetchers_to_pairs fs st1) as [pairs st2].
  cbn in *. subst. unfold pairs_of. now rewrite <- app_assoc.
Qed.

Lemma pairs_of_keys (fetcher : StyleFetcher) (key : string) :
  In key (map fst (pairs_of fetcher)) <-> claims key fetcher.
Proof.
  unfold pairs_of, domain_pairs, claims.
  rewrite map_app, !map_map, in_app_iff. cbn [fst]. now rewrite !map_id.
Qed.

Lemma pairs_of_values (fetcher : StyleFetcher) (p : string * StyleFetcher) :
  In p (pairs_of fetcher) -> snd p = fetcher.
Proof.
  unfold pairs_of, domain_pairs. rewrite in_app_iff, !in_map_iff.
  intros [[x [<- _]] | [x [<- _]]]; reflexivity.
Qed.

Lemma flat_map_pairs_keys (fs : list StyleFetcher) (key : string) :
  In key (map fst (flat_map pairs_of fs)) <-> exists f, In f fs /\ claims key f.
Proof.
  rewrite in_map_iff. split.
  - intros [[k v] [Hk Hin]]. cbn in Hk. subst k.
    apply in_flat_map in Hin as [f [Hf Hp]]. exists f. split; [assumption|].
    apply pairs_of_keys, in_map_iff. now exists (key, v).
  - intros [f [Hf Hc]]. apply pairs_of_keys, in_map_iff in Hc as [[k v] [Hk Hp]].
    exists (k, v). split; [assumption|]. apply in_flat_map. now exists f.
Qed.

(** Last write wins, for any sequence of fetchers: the last fetcher that
    claims a key is the one the registry binds it to. *)
Lemma registry_last_claim (before after : list StyleFetcher) (f : StyleFetcher)
    (key : string) (st : UrllibState) :
  claims key f ->
  (forall g, In g after -> ~ claims key g) ->
  dict (fst (_fetchers_to_pairs (before ++ f :: after) st)) !! key = Some f.
Proof.
  intros Hclaim Hafter. rewrite _fetchers_to_pairs_fst, flat_map_app.
  cbn [flat_map].
  apply pairs_of_keys in Hclaim.
  destruct (last_occurrence _ _ Hclaim) as (l1 & v & l2 & Heq & Hn).
  assert (v = f) as ->.
  { apply (pairs_of_values f (key, v)). rewrite Heq. apply in_elt. }
  rewrite Heq, <- app_assoc, app_assoc. cbn [app].
  rewrite <- app_assoc. cbn [app].
  replace (flat_map pairs_of before ++ l1 ++ (key, f) :: l2 ++ flat_map pairs_of after)%list
    with ((flat_map pairs_of before ++ l1) ++ (key, f) :: (l2 ++ flat_map pairs_of after))%list
    by now rewrite <- app_assoc.
  apply dict_lookup_last.
  rewrite map_app, in_app_iff. intros [H | H]; [contradiction|].
  apply flat_map_pairs_keys in H as [g [Hg Hc]]. exact (Hafter g Hg Hc).
Qed.

Section Construction.

Variable parse_cache_option : string -> CachingEnum * ExpireAfter.
Variables FileFetcher HttpFetcher GitHubFetcher PythonPackageFetcher : StyleFetcherClass.

Local Abbreviation build_registry :=
  (_get_fetchers FileFetcher HttpFetcher GitHubFetcher PythonPackageFetcher).
Local Abbreviation order :=
  (construction_order FileFetcher HttpFetcher GitHubFetcher PythonPackageFetcher).
Local Abbreviation new_manager :=
  (__post_init__ parse_cache_option
     FileFetcher HttpFetcher GitHubFetcher PythonPackageFetcher).

Lemma _get_fetchers_dict (session : CachedSession) (st : UrllibState) :
  fst (build_registry session st)
  = dict (fst (_fetchers_to_pairs (order session) st)).
Proof.
  unfold _get_fetchers, construction_order.
  now destruct (_fetchers_to_pairs _ st).
Qed.

Lemma __post_init___session (offline : bool) (cache_dir cache_option : string)
    (st : UrllibState) :
  session (fst (new_manager offline cache_dir cache_option st))
  = {| cache_name := path_join cache_dir "styles";
       expire_after := snd (parse_cache_option cache_option);
       cache_control := is_EXPIRES (fst (parse_cache_option cache_option)) |}.
Proof.
  unfold __post_init__. destruct (parse_cache_option cache_option) as [caching e].
  now destruct (_get_fetchers _ _ _ _ _ st).
Qed.

(** Whatever the parser is, the session gets the expiration it resolved,
    and its [cache_control] flag is set exactly for the expiring mode. *)
Lemma session_follows_parser (offline : bool) (cache_dir cache_option : string)
    (st : UrllibState) :
  let s := session (fst (new_manager offline cache_dir cache_option st)) in
  expire_after s = snd (parse_cache_option cache_option)
  /\ (cache_control s = true <-> fst (parse_cache_option cache_option) = EXPIRES).
Proof.
  cbv zeta. rewrite __post_init___session. cbn.
  destruct (fst (parse_cache_option cache_option)); cbn; intuition congruence.
Qed.

(** C9: last write wins.  Of the fetchers that claim a key, the one latest
    in the construction order (file, HTTP, GitHub, Python package) is the
    one the registry binds the key to; building the registry raises nothing,
    and a key no fetcher claims is left unbound. *)
Theorem registry_last_write_wins (session : CachedSession) (st : UrllibState)
    (key : string) :
  (forall (i : nat) (f : StyleFetcher),
      order session !! i = Some f ->
      claims key f ->
      (forall (j : nat) (g : StyleFetcher),
          (i < j)%nat -> order session !! j = Some g -> ~ claims key g) ->
      fst (build_registry session st) !! key = Some f)
  /\ ((forall f, In f (order session) -> ~ claims key f) ->
      fst (build_registry session st) !! key = None).
Proof.
  split.
  - intros i f Hi Hclaim Hlater. rewrite _get_fetchers_dict.
    pose proof (take_drop_middle _ _ _ Hi) as Hsplit. rewrite <- Hsplit.
    apply registry_last_claim; [assumption|].
    intros g Hg Hcg. apply list_elem_of_In, list_elem_of_lookup in Hg as [k Hk].
    rewrite lookup_drop in Hk. apply (Hlater (S i + k)%nat g); [lia | exact Hk | exact Hcg].
  - intros Hnone. rewrite _get_fetchers_dict, _fetchers_to_pairs_fst.
    apply dict_lookup_unclaimed. intros H.
    apply flat_map_pairs_keys in H as [f [Hf Hc]]. exact (Hnone f Hf Hc).
Qed.

End Construction.

Section CachePolicy.

Variable duration_of : string -> option Z.
Variable otherwise : string -> CachingEnum * ExpireAfter.
Variables FileFetcher HttpFetcher GitHubFetcher PythonPackageFetcher : StyleFetcherClass.

Local Abbreviation parse := (parse_cache_option_spec duration_of otherwise).
Local Abbreviation new_manager :=
  (__post_init__ (parse_cache_option_spec duration_of otherwise)
     FileFetcher HttpFetcher GitHubFetcher PythonPackageFetcher).

Lemma parse_cache_option_spec_cases (policy : string) :
  (policy = "never" -> parse policy = (NEVER, EXPIRE_IMMEDIATELY))
  /\ (policy = "forever" -> parse policy = (FOREVER, NEVER_EXPIRE))
  /\ (forall seconds,
        policy <> "never" -> policy <> "forever" -> duration_of policy = Some seconds ->
        parse policy = (EXPIRES, ExpireDelta seconds))
  /\ (policy <> "never" -> policy <> "forever" -> duration_of policy = None ->
      parse policy = otherwise policy).
Proof.
  unfold parse_cache_option_spec. repeat split.
  - intros ->. reflexivity.
  - intros ->. reflexivity.
  - intros seconds Hn Hf Hd. apply String.eqb_neq in Hn, Hf. now rewrite Hn, Hf, Hd.
  - intros Hn Hf Hd. apply String.eqb_neq in Hn, Hf. now rewrite Hn, Hf, Hd.
Qed.

(** C8: with the policy parser as the spec describes it, the session of the
    constructed manager has [cache_control] set exactly when the policy text
    resolves to an expiring mode.  The text "forever" gives no expiration
    and a clear flag, "never" gives immediate expiration and a clear flag,
    and a text that spells out a duration gives that expiration and a set
    flag; when the parser resolves no other text to an expiring mode, the
    flag is set exactly for the texts that spell out a duration. *)
Theorem cache_policy_session (offline : bool) (cache_dir policy : string)
    (st : UrllibState) :
  let s := session (fst (new_manager offline cache_dir policy st)) in
  (cache_control s = true <-> fst (parse policy) = EXPIRES)
  /\ (policy = "forever" ->
      expire_after s = NEVER_EXPIRE /\ cache_control s = false)
  /\ (policy = "never" ->
      expire_after s = EXPIRE_IMMEDIATELY /\ cache_control s = false)
  /\ (forall seconds,
        policy <> "never" -> policy <> "forever" -> duration_of policy = Some seconds ->
        expire_after s = ExpireDelta seconds /\ cache_control s = true)
  /\ ((forall text, fst (otherwise text) <> EXPIRES) ->
      (cache_control s = true
       <-> policy <> "never" /\ policy <> "forever"
           /\ exists seconds, duration_of policy = Some seconds)).
Proof.
  cbv zeta. rewrite __post_init___session. cbn [expire_after cache_control].
  destruct (parse_cache_option_spec_cases policy) as (Hnever & Hforever & Hdur & Hother).
  split; [|split; [|split; [|split]]].
  - destruct (fst (parse policy)); cbn; intuition congruence.
  - intros H. now rewrite (Hforever H).
  - intros H. now rewrite (Hnever H).
  - intros seconds Hn Hf Hd. now rewrite (Hdur seconds Hn Hf Hd).
  - intros Hno.
    destruct (String.eqb_spec policy "never") as [En | Hn].
    { rewrite (Hnever En). cbn. split; [discriminate | tauto]. }
    destruct (String.eqb_spec policy "forever") as [Ef | Hf].
    { rewrite (Hforever Ef). cbn. split; [discriminate | tauto]. }
    destruct (duration_of policy) as [seconds|] eqn:Hd.
    + rewrite (Hdur seconds Hn Hf eq_refl). cbn. split; [|reflexivity].
      intros _. repeat split; try assumption. now exists seconds.
    + rewrite (Hother Hn Hf eq_refl). split.
      * intros H. exfalso. apply (Hno policy).
        destruct (fst (otherwise policy)); cbn in H; congruence.
      * intros (_ & _ & seconds & Hs). discriminate.
Qed.

End CachePolicy.

Lemma cache_policy_session_witness :
  (expire_after (Sample.session_for "forever") = NEVER_EXPIRE
   /\ cache_control (Sample.session_for "forever") = false)
  /\ (expire_after (Sample.session_for "never") = EXPIRE_IMMEDIATELY
      /\ cache_control (Sample.session_for "never") = false)
  /\ (expire_after (Sample.session_for "2 days") = ExpireDelta 172800
      /\ cache_control (Sample.session_for "2 days") = true).
Proof.
  split; [|split].
  - apply (proj1 (proj2 (cache_policy_session Sample.duration_of Sample.otherwise
                           Sample.FileFetcher Sample.HttpFetcher Sample.GitHubFetcher
                           Sample.PythonPackageFetcher false "/tmp/cache" "forever"
                           urllib_initial))).
    reflexivity.
  - apply (proj1 (proj2 (proj2 (cache_policy_session Sample.duration_of Sample.otherwise
                           Sample.FileFetcher Sample.HttpFetcher Sample.GitHubFetcher
                           Sample.PythonPackageFetcher false "/tmp/cache" "never"
                           urllib_initial)))).
    reflexivity.
  - apply (proj1 (proj2 (proj2 (proj2
             (cache_policy_session Sample.duration_of Sample.otherwise
                Sample.FileFetcher Sample.HttpFetcher Sample.GitHubFetcher
                Sample.PythonPackageFetcher false "/tmp/cache" "2 days"
                urllib_initial)))) 172800%Z).
    + discriminate.
    + discriminate.
    + reflexivity.
Defined.

Lemma registry_last_write_wins_witness :
  Sample.colliding_registry !! "https" = Some Sample.mirror
  /\ Sample.colliding_registry !! "github.com" = Some Sample.mirror
  /\ Sample.colliding_registry !! "svn" = None.
Proof.
  pose proof (registry_last_write_wins
                Sample.FileFetcher Sample.HttpFetcher Sample.GitHubFetcher
                Sample.MirrorFetcher (session (Sample.manager false)) urllib_initial)
    as H.
  assert (forall (key : string) (j : nat) (g : StyleFetcher),
             (3 < j)%nat ->
             construction_order Sample.FileFetcher Sample.HttpFetcher Sample.GitHubFetcher
               Sample.MirrorFetcher (session (Sample.manager false)) !! j = Some g ->
             ~ claims key g) as Hlast.
  { intros key j g Hj Hg. do 4 (destruct j as [|j]; [lia|]). discriminate. }
  split; [|split].
  - apply (proj1 (H "https") 3%nat Sample.mirror eq_refl).
    + left. vm_compute. now left.
    + apply Hlast.
  - apply (proj1 (H "github.com") 3%nat Sample.mirror eq_refl).
    + right. vm_compute. now left.
    + apply Hlast.
  - apply (proj2 (H "svn")). intros f Hf [Hc | Hc];
      repeat (destruct Hf as [<- | Hf]; [vm_compute in Hc; intuition discriminate|]);
      destruct Hf.
Defined.

(** ** Registration of schemes on urllib *)

Lemma mem_In (protocol : string) (table : list string) :
  mem protocol table = true <-> In protocol table.
Proof.
  unfold mem. rewrite existsb_exists. split.
  - intros [x [Hin Heq]]. apply String.eqb_eq in Heq. now subst.
  - intros Hin. exists protocol. split; [assumption | apply String.eqb_refl].
Qed.

Lemma mem_false (protocol : string) (table : list string) :
  mem protocol table = false <-> ~ In protocol table.
Proof.
  rewrite <- mem_In. destruct (mem protocol table); split; congruence.
Qed.

Lemma In_firstn (n : nat) (l : list string) (x : string) :
  In x (firstn n l) -> In x l.
Proof.
  revert l. induction n as [|n IH]; intros [|y l]; cbn; try tauto.
  intros [-> | H]; [now left | right; now apply IH].
Qed.

Lemma NoDup_snoc (table : list string) (protocol : string) :
  NoDup table -> ~ In protocol table -> NoDup (table ++ [protocol])%list.
Proof.
  intros Hnd Hnotin. apply NoDup_app; repeat split; try assumption.
  - intros x Hx. rewrite list_elem_of_In in Hx. intros Hin.
    apply list_elem_of_In in Hin. destruct Hin as [<- | []]. contradiction.
  - apply NoDup_singleton.
Qed.

(** Appending unless present: the table stays duplicate-free, keeps its
    entries and has the protocol. *)
Lemma ensure_listed (table : list string) (protocol : string) :
  let table' := if negb (mem protocol table) then (table ++ [protocol])%list else table in
  (NoDup table -> NoDup table')
  /\ (forall k, In k table -> In k table')
  /\ In protocol table'.
Proof.
  cbv zeta. destruct (mem protocol table) eqn:Hm; cbn [negb].
  - apply mem_In in Hm. auto.
  - apply mem_false in Hm. repeat split.
    + intros Hnd. now apply NoDup_snoc.
    + intros k Hk. apply in_or_app. now left.
    + apply in_or_app. right. now left.
Qed.

Lemma _register_on_urllib_ok (protocol : string) (st : UrllibState) :
  tables_ok st -> tables_ok (_register_on_urllib protocol st).
Proof.
  intros (Hrel & Hloc & Hkeys). unfold _register_on_urllib.
  destruct (mem protocol (lru_keys st)) eqn:Hhit.
  - split; [assumption|]. split; [assumption|]. cbn.
    intros k [<- | Hk].
    + apply mem_In in Hhit. now apply Hkeys.
    + apply filter_In in Hk as [Hk _]. now apply Hkeys.
  - destruct (ensure_listed (uses_relative st) protocol) as (R1 & R2 & R3).
    destruct (ensure_listed (uses_netloc st) protocol) as (L1 & L2 & L3).
    cbv zeta in *. split; [now apply R1|]. split; [now apply L1|].
    cbn [uses_relative uses_netloc lru_keys _register_on_urllib_body].
    intros k Hk. apply In_firstn in Hk. destruct Hk as [<- | Hk]; [now split|].
    split; [apply R2 | apply L2]; now apply Hkeys.
Qed.

Lemma _register_on_urllib_listed (protocol : string) (st : UrllibState) :
  tables_ok st ->
  In protocol (uses_relative (_register_on_urllib protocol st))
  /\ In protocol (uses_netloc (_register_on_urllib protocol st)).
Proof.
  intros (_ & _ & Hkeys). unfold _register_on_urllib.
  destruct (mem protocol (lru_keys st)) eqn:Hhit.
  - apply mem_In in Hhit. cbn. now apply Hkeys.
  - cbn. split; apply ensure_listed.
Qed.

(** Registering a protocol both tables already list changes neither. *)
Lemma _register_on_urllib_noop (protocol : string) (st : UrllibState) :
  In protocol (uses_relative st) ->
  In protocol (uses_netloc st) ->
  uses_relative (_register_on_urllib protocol st) = uses_relative st
  /\ uses_netloc (_register_on_urllib protocol st) = uses_netloc st.
Proof.
  intros Hrel Hloc. apply mem_In in Hrel, Hloc. unfold _register_on_urllib.
  destruct (mem protocol (lru_keys st)); cbn; [auto|].
  now rewrite Hrel, Hloc.
Qed.

Lemma register_all_ok (ps : list string) (st : UrllibState) :
  tables_ok st -> tables_ok (register_all ps st).
Proof.
  revert st. induction ps as [|p ps IH]; intros st Hok; [assumption|].
  cbn. apply IH. now apply _register_on_urllib_ok.
Qed.

Lemma urllib_initial_ok : tables_ok urllib_initial.
Proof.
  split; [|split].
  - apply (bool_decide_unpack _). vm_compute. exact I.
  - apply (bool_decide_unpack _). vm_compute. exact I.
  - intros k [].
Qed.

Lemma repeated_registration (protocol : string) (st : UrllibState) (n : nat) :
  tables_ok st ->
  let st1 := _register_on_urllib protocol st in
  let stn := Nat.iter (S n) (_register_on_urllib protocol) st in
  tables_ok stn
  /\ uses_relative stn = uses_relative st1
  /\ uses_netloc stn = uses_netloc st1.
Proof.
  intros Hok. cbv zeta. induction n as [|n (IHok & IHrel & IHloc)].
  - cbn. split; [now apply _register_on_urllib_ok | auto].
  - change (Nat.iter (S (S n)) (_register_on_urllib protocol) st)
      with (_register_on_urllib protocol (Nat.iter (S n) (_register_on_urllib protocol) st)).
    split; [now apply _register_on_urllib_ok|].
    destruct (_register_on_urllib_listed protocol st Hok) as [Hr Hl].
    rewrite <- IHrel in Hr. rewrite <- IHloc in Hl.
    destruct (_register_on_urllib_noop protocol _ Hr Hl) as [-> ->]. auto.
Qed.

(** C7: registration is idempotent.  In a process whose tables start as
    urllib defines them and where any protocols were registered before, N
    calls for one scheme (N at least 1) leave the tables as the first call
    left them, and each table lists the scheme exactly once. *)
Theorem registration_idempotent (earlier : list string) (protocol : string) (N : nat) :
  (1 <= N)%nat ->
  let st := register_all earlier urllib_initial in
  let stN := Nat.iter N (_register_on_urllib protocol) st in
  count_occ string_dec (uses_relative stN) protocol = 1%nat
  /\ count_occ string_dec (uses_netloc stN) protocol = 1%nat
  /\ uses_relative stN = uses_relative (_register_on_urllib protocol st)
  /\ uses_netloc stN = uses_netloc (_register_on_urllib protocol st).
Proof.
  intros HN. cbv zeta. destruct N as [|n]; [lia|].
  pose proof (register_all_ok earlier _ urllib_initial_ok) as Hok.
  destruct (repeated_registration protocol _ n Hok) as ((Hrel & Hloc & _) & Er & El).
  cbv zeta in *. rewrite Er, El in *.
  destruct (_register_on_urllib_listed protocol _ Hok) as [Hr Hl].
  repeat split; try reflexivity.
  - apply NoDup_ListNoDup in Hrel.
    exact (proj1 (NoDup_count_occ' string_dec _) Hrel _ Hr).
  - apply NoDup_ListNoDup in Hloc.
    exact (proj1 (NoDup_count_occ' string_dec _) Hloc _ Hl).
Qed.

Lemma registration_idempotent_witness :
  count_occ string_dec
    (uses_relative (Nat.iter 3 (_register_on_urllib "gh")
                      (register_all ["http"; "gh"; "py"] urllib_initial))) "gh" = 1%nat
  /\ count_occ string_dec
       (uses_netloc (Nat.iter 3 (_register_on_urllib "gh")
                       (register_all ["http"; "gh"; "py"] urllib_initial))) "gh" = 1%nat.
Proof.
  destruct (registration_idempotent ["http"; "gh"; "py"] "gh" 3 ltac:(lia))
    as (Hrel & Hloc & _).
  exact (conj Hrel Hloc).
Defined.

(** * Further properties of the module *)

(** ** The registry and the urllib tables after construction *)

Lemma dict_fold_lookup_inv (pairs : list (string * StyleFetcher))
    (d : gmap string StyleFetcher) (key : string) (v : StyleFetcher) :
  fold_left (fun d p => <[fst p := snd p]> d) pairs d !! key = Some v ->
  In (key, v) pairs \/ d !! key = Some v.
Proof.
  revert d. induction pairs as [|[k w] pairs IH]; intros d H; [now right|].
  cbn [fold_left fst snd] in H. destruct (IH _ H) as [Hin | Hd].
  - left. now right.
  - destruct (decide (k = key)) as [-> | Hne].
    + rewrite lookup_insert_eq in Hd. injection Hd as ->. left. now left.
    + rewrite lookup_insert_ne in Hd by assumption. now right.
Qed.

(** A binding of [dict] comes from one of the pairs. *)
Lemma dict_lookup_inv (pairs : list (string * StyleFetcher)) (key : string)
    (v : StyleFetcher) :
  dict pairs !! key = Some v -> In (key, v) pairs.
Proof.
  intros H. destruct (dict_fold_lookup_inv _ _ _ _ H) as [Hin | He]; [assumption|].
  rewrite lookup_empty in He. discriminate.
Qed.

(** A key among the pairs is bound. *)
Lemma dict_lookup_claimed (pairs : list (string * StyleFetcher)) (key : string) :
  In key (map fst pairs) -> is_Some (dict pairs !! key).
Proof.
  intros H. destruct (last_occurrence _ _ H) as (before & v & after & -> & Hn).
  exists v. now apply dict_lookup_last.
Qed.

Lemma registry_lookup_inv (fs : list StyleFetcher) (st : UrllibState) (key : string)
    (f : StyleFetcher) :
  dict (fst (_fetchers_to_pairs fs st)) !! key = Some f -> In f fs /\ claims key f.
Proof.
  intros H. apply dict_lookup_inv in H. rewrite _fetchers_to_pairs_fst in H.
  apply in_flat_map in H as [g [Hg Hp]].
  pose proof (pairs_of_values g _ Hp) as Hv. cbn in Hv. subst g.
  split; [assumption|]. apply pairs_of_keys, in_map_iff. now exists (key, f).
Qed.

(** The state [protocol_pairs] and [_fetchers_to_pairs] leave behind is that
    of registering the protocols in order. *)
Lemma protocol_pairs_snd (fetcher : StyleFetcher) (protos : list string) (st : UrllibState) :
  snd (protocol_pairs fetcher protos st) = register_all protos st.
Proof.
  revert st. induction protos as [|p ps IH]; intros st; [reflexivity|].
  cbn [protocol_pairs register_all fold_left]. specialize (IH (_register_on_urllib p st)).
  destruct (protocol_pairs fetcher ps (_register_on_urllib p st)) as [pairs st2].
  exact IH.
Qed.

Lemma register_all_app (ps qs : list string) (st : UrllibState) :
  register_all (ps ++ qs)%list st = register_all qs (register_all ps st).
Proof. unfold register_all. apply fold_left_app. Qed.

Lemma _fetchers_to_pairs_snd (fs : list StyleFetcher) (st : UrllibState) :
  snd (_fetchers_to_pairs fs st)
  = register_all (flat_map (fun f => protocols (klass f)) fs) st.
Proof.
  revert st. induction fs as [|f fs IH]; intros st; [reflexivity|].
  cbn [_fetchers_to_pairs flat_map]. rewrite register_all_app.
  pose proof (protocol_pairs_snd f (protocols (klass f)) st) as Hp.
  destruct (protocol_pairs f (protocols (klass f)) st) as [ppairs st1].
  cbn [snd] in Hp. subst st1.
  specialize (IH (register_all (protocols (klass f)) st)).
  destruct (_fetchers_to_pairs fs _) as [pairs st2]. exact IH.
Qed.

(** One registration leaves a table as it was or appends the protocol. *)
Lemma _register_on_urllib_appends (protocol : string) (st : UrllibState) :
  (uses_relative (_register_on_urllib protocol st) = uses_relative st
   \/ uses_relative (_register_on_urllib protocol st)
      = (uses_relative st ++ [protocol])%list)
  /\ (uses_netloc (_register_on_urllib protocol st) = uses_netloc st
      \/ uses_netloc (_register_on_urllib protocol st)
         = (uses_netloc st ++ [protocol])%list).
Proof.
  unfold _register_on_urllib, _register_on_urllib_body.
  destruct (mem protocol (lru_keys st)); cbn; [auto|].
  destruct (mem protocol (uses_relative st)), (mem protocol (uses_netloc st)); cbn; auto.
Qed.

Lemma _register_on_urllib_suffix (protocol : string) (st : UrllibState) :
  exists rel loc,
    uses_relative (_register_on_urllib protocol st) = (uses_relative st ++ rel)%list
    /\ uses_netloc (_register_on_urllib protocol st) = (uses_netloc st ++ loc)%list
    /\ (forall k, In k rel -> k = protocol)
    /\ (forall k, In k loc -> k = protocol).
Proof.
  assert (forall k, In k [protocol] -> k = protocol) as Hone
    by (intros k [<- | []]; reflexivity).
  assert (forall k : string, In k [] -> k = protocol) as Hnil by (intros k []).
  destruct (_register_on_urllib_appends protocol st) as [[Er | Er] [El | El]];
    rewrite Er, El.
  - exists [], []. rewrite !app_nil_r. auto.
  - exists [], [protocol]. rewrite !app_nil_r. auto.
  - exists [protocol], []. rewrite !app_nil_r. auto.
  - exists [protocol], [protocol]. auto.
Qed.

(** Registrations only append, and only the protocols registered. *)
Lemma register_all_appends (ps : list string) (st : UrllibState) :
  exists rel loc,
    uses_relative (register_all ps st) = (uses_relative st ++ rel)%list
    /\ uses_netloc (register_all ps st) = (uses_netloc st ++ loc)%list
    /\ (forall k, In k rel -> In k ps)
    /\ (forall k, In k loc -> In k ps).
Proof.
  revert st. induction ps as [|p ps IH]; intros st.
  - exists [], []. cbn. rewrite !app_nil_r. auto.
  - cbn [register_all fold_left].
    fold (register_all ps (_register_on_urllib p st)).
    destruct (IH (_register_on_urllib p st)) as (rel & loc & Hr & Hl & Hrin & Hlin).
    destruct (_register_on_urllib_suffix p st) as (rel1 & loc1 & Er & El & Hr1 & Hl1).
    exists (rel1 ++ rel)%list, (loc1 ++ loc)%list.
    rewrite Hr, Hl, Er, El, <- !app_assoc.
    split; [reflexivity|]. split; [reflexivity|].
    split; intros k Hk; apply in_app_or in Hk as [Hk | Hk].
    + left. symmetry. now apply Hr1.
    + right. now apply Hrin.
    + left. symmetry. now apply Hl1.
    + right. now apply Hlin.
Qed.

(** From a state that keeps the invariant, every protocol registered ends
    up in both tables. *)
Lemma register_all_listed (ps : list string) (st : UrllibState) (p : string) :
  tables_ok st -> In p ps ->
  In p (uses_relative (register_all ps st)) /\ In p (uses_netloc (register_all ps st)).
Proof.
  revert st. induction ps as [|q ps IH]; intros st Hok Hin; [destruct Hin|].
  cbn [register_all fold_left]. fold (register_all ps (_register_on_urllib q st)).
  destruct Hin as [-> | Hin].
  - destruct (_register_on_urllib_listed p st Hok) as [Hr Hl].
    destruct (register_all_appends ps (_register_on_urllib p st))
      as (rel & loc & Er & El & _).
    rewrite Er, El. split; apply in_or_app; now left.
  - apply IH; [now apply _register_on_urllib_ok | assumption].
Qed.

(** Registering protocols that both tables list changes neither table. *)
Lemma register_all_noop (ps : list string) (st : UrllibState) :
  (forall p, In p ps -> In p (uses_relative st) /\ In p (uses_netloc st)) ->
  uses_relative (register_all ps st) = uses_relative st
  /\ uses_netloc (register_all ps st) = uses_netloc st.
Proof.
  revert st. induction ps as [|q ps IH]; intros st H; [now split|].
  cbn [register_all fold_left]. fold (register_all ps (_register_on_urllib q st)).
  destruct (H q (or_introl eq_refl)) as [Hr Hl].
  destruct (_register_on_urllib_noop q st Hr Hl) as [Er El].
  destruct (IH (_register_on_urllib q st)) as [Er' El'].
  - intros p Hp. rewrite Er, El. apply H. now right.
  - now rewrite Er', El'.
Qed.

Section ConstructionFacts.

Variable parse_cache_option : string -> CachingEnum * ExpireAfter.
Variables FileFetcher HttpFetcher GitHubFetcher PythonPackageFetcher : StyleFetcherClass.

Local Abbreviation build_registry :=
  (_get_fetchers FileFetcher HttpFetcher GitHubFetcher PythonPackageFetcher).
Local Abbreviation order :=
  (construction_order FileFetcher HttpFetcher GitHubFetcher PythonPackageFetcher).
Local Abbreviation new_manager :=
  (__post_init__ parse_cache_option
     FileFetcher HttpFetcher GitHubFetcher PythonPackageFetcher).
Local Abbreviation to_register :=
  (registered_protocols FileFetcher HttpFetcher GitHubFetcher PythonPackageFetcher).

Lemma _get_fetchers_state (session : CachedSession) (st : UrllibState) :
  snd (build_registry session st) = register_all (to_register session) st.
Proof.
  unfold _get_fetchers, registered_protocols, construction_order.
  rewrite <- _fetchers_to_pairs_snd. now destruct (_fetchers_to_pairs _ st).
Qed.

Lemma _get_fetchers_registry (session : CachedSession) (st : UrllibState) :
  fst (build_registry session st) = dict (flat_map pairs_of (order session)).
Proof.
  unfold _get_fetchers, construction_order.
  rewrite <- (_fetchers_to_pairs_fst _ st). now destruct (_fetchers_to_pairs _ st).
Qed.

Lemma registered_protocols_spec (session : CachedSession) (p : string) :
  In p (to_register session)
  <-> exists f, In f (order session) /\ In p (protocols (klass f)).
Proof. unfold registered_protocols. apply in_flat_map. Qed.

Lemma __post_init___fields (offline : bool) (cache_dir cache_option : string)
    (st : UrllibState) :
  let m := fst (new_manager offline cache_dir cache_option st) in
  fetchers m = fst (build_registry (session m) st)
  /\ snd (new_manager offline cache_dir cache_option st)
     = snd (build_registry (session m) st).
Proof.
  cbv zeta. unfold __post_init__. destruct (parse_cache_option cache_option) as [caching e].
  destruct (_get_fetchers _ _ _ _ _ st) as [reg st'] eqn:Hb. cbn. now rewrite Hb.
Qed.

(** X1: a key the registry binds is bound to one of the four constructed
    fetchers, and that fetcher declares the key among its protocols or
    domains; a key is bound exactly when some fetcher declares it. *)
Theorem registry_binds_only_claimers (session : CachedSession) (st : UrllibState)
    (key : string) :
  (forall f, fst (build_registry session st) !! key = Some f ->
             In f (order session) /\ claims key f)
  /\ (is_Some (fst (build_registry session st) !! key)
      <-> exists f, In f (order session) /\ claims key f).
Proof.
  assert (forall f, fst (build_registry session st) !! key = Some f ->
                    In f (order session) /\ claims key f) as Hsound.
  { intros f H. rewrite _get_fetchers_dict in H. now apply registry_lookup_inv in H. }
  split; [exact Hsound|]. split.
  - intros [f Hf]. exists f. now apply Hsound.
  - intros Hex. rewrite _get_fetchers_registry. apply dict_lookup_claimed.
    now apply flat_map_pairs_keys.
Qed.

(** X2: every fetcher in a manager's registry holds the manager's own
    session when its class requires a connection, and no session
    otherwise. *)
Theorem manager_fetchers_share_session (offline : bool) (cache_dir cache_option : string)
    (st : UrllibState) (key : string) (f : StyleFetcher) :
  let m := fst (new_manager offline cache_dir cache_option st) in
  fetchers m !! key = Some f ->
  fetcher_session f = if requires_connection (klass f) then Some (session m) else None.
Proof.
  cbv zeta. destruct (__post_init___fields offline cache_dir cache_option st) as [Hf _].
  cbv zeta in Hf. rewrite Hf, _get_fetchers_dict. intros H.
  apply registry_lookup_inv in H as [Hin _].
  unfold construction_order, _factory in Hin.
  repeat (destruct Hin as [<- | Hin];
          [match goal with |- context [requires_connection ?k] =>
             destruct (requires_connection k) eqn:Hreq end;
           cbn; rewrite ?Hreq; reflexivity|]).
  destruct Hin.
Qed.

(** X3: building the registry from tables that keep the invariant registers
    every protocol of every fetcher in both urllib tables, and the tables
    still list no scheme twice. *)
Theorem registry_protocols_registered (session : CachedSession) (st : UrllibState) :
  tables_ok st ->
  tables_ok (snd (build_registry session st))
  /\ forall f p, In f (order session) -> In p (protocols (klass f)) ->
       In p (uses_relative (snd (build_registry session st)))
       /\ In p (uses_netloc (snd (build_registry session st))).
Proof.
  intros Hok. rewrite _get_fetchers_state. split; [now apply register_all_ok|].
  intros f p Hf Hp. apply register_all_listed; [assumption|].
  apply registered_protocols_spec. now exists f.
Qed.

(** X4: building the registry only appends to the urllib tables, and what
    it appends are protocols of the fetchers: no entry is removed or moved,
    and a domain is never registered as a scheme. *)
Theorem registry_build_only_appends_protocols (session : CachedSession)
    (st : UrllibState) :
  exists rel loc,
    uses_relative (snd (build_registry session st)) = (uses_relative st ++ rel)%list
    /\ uses_netloc (snd (build_registry session st)) = (uses_netloc st ++ loc)%list
    /\ (forall k, In k rel \/ In k loc ->
          exists f, In f (order session) /\ In k (protocols (klass f))).
Proof.
  rewrite _get_fetchers_state.
  destruct (register_all_appends (to_register session) st)
    as (rel & loc & Hr & Hl & Hrin & Hlin).
  exists rel, loc. split; [assumption|]. split; [assumption|].
  intros k [Hk | Hk]; apply registered_protocols_spec; auto.
Qed.

(** X5: building a registry again, for the same or another session, on the
    state a first build left behind changes neither urllib table; with the
    same session it gives the same registry. *)
Theorem registry_rebuild_changes_nothing (session session' : CachedSession)
    (st : UrllibState) :
  tables_ok st ->
  let st1 := snd (build_registry session st) in
  uses_relative (snd (build_registry session' st1)) = uses_relative st1
  /\ uses_netloc (snd (build_registry session' st1)) = uses_netloc st1
  /\ fst (build_registry session st1) = fst (build_registry session st).
Proof.
  intros Hok. cbv zeta.
  assert (to_register session' = to_register session) as Hsame.
  { unfold registered_protocols, construction_order, _factory. cbn [flat_map].
    repeat match goal with |- context [if ?b then _ else _] => destruct b end;
      reflexivity. }
  rewrite (_get_fetchers_state session'), Hsame, (_get_fetchers_state session).
  rewrite !_get_fetchers_registry.
  destruct (register_all_noop (to_register session)
              (register_all (to_register session) st)) as [Hr Hl].
  - intros p Hp. now apply register_all_listed.
  - auto.
Qed.

End ConstructionFacts.

Lemma registry_binds_only_claimers_witness :
  In Sample.github
    (construction_order Sample.FileFetcher Sample.HttpFetcher Sample.GitHubFetcher
       Sample.PythonPackageFetcher (session (Sample.manager false)))
  /\ claims "gh" Sample.github.
Proof.
  apply (proj1 (registry_binds_only_claimers
                  Sample.FileFetcher Sample.HttpFetcher Sample.GitHubFetcher
                  Sample.PythonPackageFetcher (session (Sample.manager false))
                  urllib_initial "gh") Sample.github).
  vm_compute. reflexivity.
Defined.

Lemma manager_fetchers_share_session_witness :
  fetcher_session Sample.github
  = if requires_connection (klass Sample.github)
    then Some (session (Sample.manager false)) else None.
Proof.
  apply (manager_fetchers_share_session Sample.parse_cache_option
           Sample.FileFetcher Sample.HttpFetcher Sample.GitHubFetcher
           Sample.PythonPackageFetcher false "/tmp/cache" "forever" urllib_initial
           "gh" Sample.github).
  vm_compute. reflexivity.
Defined.

Lemma registry_protocols_registered_witness :
  In "pypackage"
    (uses_relative
       (snd (_get_fetchers Sample.FileFetcher Sample.HttpFetcher Sample.GitHubFetcher
               Sample.PythonPackageFetcher (session (Sample.manager false))
               urllib_initial)))
  /\ In "pypackage"
       (uses_netloc
          (snd (_get_fetchers Sample.FileFetcher Sample.HttpFetcher Sample.GitHubFetcher
                  Sample.PythonPackageFetcher (session (Sample.manager false))
                  urllib_initial))).
Proof.
  refine (proj2 (registry_protocols_registered
                   Sample.FileFetcher Sample.HttpFetcher Sample.GitHubFetcher
                   Sample.PythonPackageFetcher (session (Sample.manager false))
                   urllib_initial _)
            (_factory (session (Sample.manager false)) Sample.PythonPackageFetcher)
            "pypackage" _ _).
  - split; [|split].
    + apply (bool_decide_unpack _). vm_compute. exact I.
    + apply (bool_decide_unpack _). vm_compute. exact I.
    + intros k [].
  - vm_compute. do 3 right. left. reflexivity.
  - vm_compute. right. left. reflexivity.
Defined.

Lemma registry_rebuild_changes_nothing_witness :
  uses_relative
    (snd (_get_fetchers Sample.FileFetcher Sample.HttpFetcher Sample.GitHubFetcher
            Sample.PythonPackageFetcher (session (Sample.manager true))
            (snd (_get_fetchers Sample.FileFetcher Sample.HttpFetcher Sample.GitHubFetcher
                    Sample.PythonPackageFetcher (session (Sample.manager false))
                    urllib_initial))))
  = uses_relative
      (snd (_get_fetchers Sample.FileFetcher Sample.HttpFetcher Sample.GitHubFetcher
              Sample.PythonPackageFetcher (session (Sample.manager false))
              urllib_initial)).
Proof.
  refine (proj1 (registry_rebuild_changes_nothing
                   Sample.FileFetcher Sample.HttpFetcher Sample.GitHubFetcher
                   Sample.PythonPackageFetcher (session (Sample.manager false))
                   (session (Sample.manager true)) urllib_initial _)).
  split; [|split].
  - apply (bool_decide_unpack _). vm_compute. exact I.
  - apply (bool_decide_unpack _). vm_compute. exact I.
  - intros k [].
Defined.

(** ** What [fetch] calls and what it raises *)

Section DispatchFacts.

Variable is_url : string -> bool.
Variable nfkc : string -> string.
Variable check_bracketed_host : string -> option string.

Local Abbreviation classify := (_get_domain_scheme is_url nfkc check_bracketed_host).
Local Abbreviation dispatch := (fetch is_url nfkc check_bracketed_host).

Lemma resolves_to_bound (registry : gmap string StyleFetcher) (domain scheme : string)
    (f : StyleFetcher) :
  resolves_to registry domain scheme f -> exists key, registry !! key = Some f.
Proof. intros [[_ H] | [_ H]]; eauto. Qed.

(** X6: when the dispatcher is online, or the resolved fetcher needs no
    connection, [fetch] calls that fetcher once with the identifier as given
    and returns its outcome unchanged, an exception included. *)
Theorem fetch_delegates (self : StyleFetcherManager) (url domain scheme : string)
    (f : StyleFetcher) :
  classify url = Ok (domain, scheme) ->
  resolves_to (fetchers self) domain scheme f ->
  offline self && requires_connection (klass f) = false ->
  dispatch self url = ([(f, url)], fetcher_fetch f url).
Proof.
  intros Hc Hres Hoff. rewrite (fetch_resolved _ _ _ _ _ _ _ _ Hc Hres).
  unfold handled_by. now rewrite Hoff.
Qed.

(** X7: [fetch] calls at most one fetcher; a fetcher it calls is bound in
    the registry and receives the identifier unchanged. *)
Theorem fetch_calls_registered_once (self : StyleFetcherManager) (url : string) :
  (length (fst (dispatch self url)) <= 1)%nat
  /\ forall call, In call (fst (dispatch self url)) ->
       snd call = url /\ exists key, fetchers self !! key = Some (fst call).
Proof.
  destruct (classify url) as [[domain scheme] | e] eqn:Hc.
  - destruct (fetch_cases _ _ _ self url domain scheme Hc) as [He | [f [Hres Hh]]].
    + rewrite He. cbn. split; [lia | intros call []].
    + rewrite Hh. unfold handled_by.
      destruct (offline self && requires_connection (klass f)); cbn.
      * split; [lia | intros call []].
      * split; [lia|]. intros call [<- | []]. cbn. split; [reflexivity|].
        now apply resolves_to_bound with domain scheme.
  - unfold fetch. rewrite Hc. cbn. split; [lia | intros call []].
Qed.

(** X8: an exception out of [fetch] is one of three: the exception of the
    classification, raised before any lookup; the unsupported-protocol error
    for a scheme with no entry; or the exception of the one fetcher called.
    Nothing is wrapped or replaced. *)
Theorem fetch_raises_only (self : StyleFetcherManager) (url : string)
    (calls : list Call) (e : exn) :
  dispatch self url = (calls, Raise e) ->
  (calls = [] /\ classify url = Raise e)
  \/ (calls = [] /\ exists domain scheme,
        classify url = Ok (domain, scheme)
        /\ fetchers self !! scheme = None
        /\ e = unsupported_protocol scheme)
  \/ (exists f, calls = [(f, url)] /\ fetcher_fetch f url = Raise e).
Proof.
  intros H. destruct (classify url) as [[domain scheme] | e'] eqn:Hc.
  - unfold fetch in H. rewrite Hc in H.
    destruct (if PyStr.nonempty domain then fetchers self !! domain else None) as [fd|].
    + destruct (offline self && requires_connection (klass fd)); [discriminate|].
      injection H as <- H. right. right. now exists fd.
    + destruct (fetchers self !! scheme) as [fs|] eqn:Hs.
      * destruct (offline self && requires_connection (klass fs)); [discriminate|].
        injection H as <- H. right. right. now exists fs.
      * injection H as <- <-. right. left. split; [reflexivity|].
        now exists domain, scheme.
  - unfold fetch in H. rewrite Hc in H. injection H as <- <-. now left.
Qed.

(** X9: an identifier that [is_url] rejects is handled by the fetcher bound
    to "file", whatever else the registry binds (the empty key included);
    when "file" is unbound the error names 'file'. *)
Theorem fetch_path_uses_file_fetcher (self : StyleFetcherManager) (url : string) :
  is_url url = false ->
  (forall f, fetchers self !! "file" = Some f -> dispatch self url = handled_by self f url)
  /\ (fetchers self !! "file" = None ->
      dispatch self url
      = ([], Raise (RuntimeError "URI protocol 'file' is not supported"))).
Proof.
  intros Hu. unfold fetch, _get_domain_scheme. rewrite Hu. cbn [PyStr.nonempty].
  split.
  - intros f Hf. now rewrite Hf.
  - intros Hf. now rewrite Hf.
Qed.

(** X13: an offline dispatcher never calls a fetcher that requires a
    connection, whatever the identifier. *)
Theorem fetch_offline_calls_no_network_fetcher (self : StyleFetcherManager)
    (url : string) :
  offline self = true ->
  forall call, In call (fst (dispatch self url)) ->
    requires_connection (klass (fst call)) = false.
Proof.
  intros Hoff call. destruct (classify url) as [[domain scheme] | e] eqn:Hc.
  - destruct (fetch_cases _ _ _ self url domain scheme Hc) as [He | [f [Hres Hh]]].
    + rewrite He. intros [].
    + rewrite Hh. unfold handled_by. rewrite Hoff. cbn [andb].
      destruct (requires_connection (klass f)) eqn:Hreq; cbn; [intros []|].
      intros [<- | []]. exact Hreq.
  - unfold fetch. rewrite Hc. intros [].
Qed.

End DispatchFacts.

Lemma fetch_delegates_witness :
  Sample.fetch (Sample.manager false) "https://github.com/a/b"
  = ([(Sample.github, "https://github.com/a/b")],
     fetcher_fetch Sample.github "https://github.com/a/b").
Proof.
  refine (fetch_delegates is_url_spec (fun s => s) (fun _ => None)
            (Sample.manager false) "https://github.com/a/b" "github.com" "https"
            Sample.github _ _ _).
  - reflexivity.
  - left. split; [discriminate | vm_compute; reflexivity].
  - reflexivity.
Defined.

Lemma fetch_calls_registered_once_witness :
  (length (fst (Sample.fetch (Sample.manager false) "styles/a.toml")) <= 1)%nat.
Proof.
  exact (proj1 (fetch_calls_registered_once is_url_spec (fun s => s) (fun _ => None)
                  (Sample.manager false) "styles/a.toml")).
Defined.

Lemma fetch_raises_only_witness :
  ([] = @nil Call /\ Sample.classify "ftp://example.org/a.toml"
                    = Raise (unsupported_protocol "ftp"))
  \/ ([] = @nil Call /\ exists domain scheme,
        Sample.classify "ftp://example.org/a.toml" = Ok (domain, scheme)
        /\ fetchers (Sample.manager true) !! scheme = None
        /\ unsupported_protocol "ftp" = unsupported_protocol scheme)
  \/ (exists f, [] = [(f, "ftp://example.org/a.toml")]
                /\ fetcher_fetch f "ftp://example.org/a.toml"
                   = Raise (unsupported_protocol "ftp")).
Proof.
  apply (fetch_raises_only is_url_spec (fun s => s) (fun _ => None)
           (Sample.manager true) "ftp://example.org/a.toml" []
           (unsupported_protocol "ftp")).
  vm_compute. reflexivity.
Defined.

Lemma fetch_path_uses_file_fetcher_witness :
  Sample.fetch (Sample.manager true) "..\styles\python.toml"
  = handled_by (Sample.manager true)
      (_factory (session (Sample.manager true)) Sample.FileFetcher)
      "..\styles\python.toml".
Proof.
  refine (proj1 (fetch_path_uses_file_fetcher is_url_spec (fun s => s) (fun _ => None)
                   (Sample.manager true) "..\styles\python.toml" _) _ _).
  - reflexivity.
  - vm_compute. reflexivity.
Defined.

Lemma fetch_offline_calls_no_network_fetcher_witness :
  requires_connection
    (klass (fst (_factory (session (Sample.manager true)) Sample.FileFetcher,
                 "styles/a.toml"))) = false.
Proof.
  refine (fetch_offline_calls_no_network_fetcher is_url_spec (fun s => s) (fun _ => None)
            (Sample.manager true) "styles/a.toml" _
            (_factory (session (Sample.manager true)) Sample.FileFetcher, "styles/a.toml") _).
  - reflexivity.
  - vm_compute. left. reflexivity.
Defined.

(** ** More on the classifier *)

Module NetlocFacts.

Import PyStr Urllib PyStrFacts CharFacts UrllibFacts.

Lemma app_assoc_str (a b c : string) : (a ++ b) ++ c = a ++ (b ++ c).
Proof. induction a as [|x a IH]; sapp; [reflexivity | now rewrite IH]. Qed.

Lemma all_app (p : ascii -> bool) (s t : string) :
  all p (s ++ t) = all p s && all p t.
Proof. induction s as [|c s IH]; sapp; [reflexivity | now rewrite IH, andb_assoc]. Qed.

Lemma rfind_last (c : ascii) (s t : string) :
  contains c t = false -> rfind c (s ++ String c t) = Some (String.length s).
Proof.
  intros Ht. induction s as [|d s IH]; sapp.
  - now rewrite (rfind_not_contains c t Ht), Ascii.eqb_refl.
  - now rewrite IH.
Qed.

Lemma partition_at (c : ascii) (s t : string) :
  contains c s = false -> partition c (s ++ String c t) = (s, true, t).
Proof.
  intros Hs. unfold partition. rewrite find_app_skip by exact Hs.
  cbn [find option_map]. rewrite Ascii.eqb_refl. cbn [option_map].
  rewrite Nat.add_0_r, take_app_length. f_equal.
  clear. induction s as [|d s IH]; sapp; [reflexivity | exact IH].
Qed.

Lemma userinfo_char_safe (c : ascii) :
  userinfo_char c = true -> negb (unsafe_url_byte c) = true.
Proof. by_char c. Qed.

Lemma userinfo_char_ascii (c : ascii) : userinfo_char c = true -> isascii_char c = true.
Proof. by_char c. Qed.

Lemma host_char_userinfo (c : ascii) : host_char c = true -> userinfo_char c = true.
Proof. by_char c. Qed.

Lemma digit_userinfo (c : ascii) : is_digit c = true -> userinfo_char c = true.
Proof. by_char c. Qed.

Lemma digit_not_at (c : ascii) : is_digit c = true -> Ascii.eqb "@" c = false.
Proof. by_char c. Qed.

Lemma netloc_lacks (c : ascii) (netloc : string) :
  userinfo_char c = false -> all userinfo_char netloc = true -> contains c netloc = false.
Proof. apply all_not_contains. Qed.

(** The network location of "//netloc/..." is [netloc], when it has none of
    the delimiters. *)
Lemma _splitnetloc_netloc (netloc rest : string) :
  all userinfo_char netloc = true ->
  fst (_splitnetloc (String "/" (String "/" (netloc ++ String "/" rest))) 2) = netloc.
Proof.
  intros Hn. unfold _splitnetloc, find_from. cbn [fold_left drop fst].
  assert (forall c, userinfo_char c = false ->
            find c (netloc ++ String "/" rest)
            = option_map (fun i => (String.length netloc + i)%nat) (find c (String "/" rest)))
    as Hfind.
  { intros c Hc. apply find_app_skip. now apply netloc_lacks. }
  rewrite !Hfind by reflexivity. simpl find.
  set (n := String.length netloc).
  assert (forall d, match option_map (fun i => (2 + i)%nat)
                       (option_map (fun i => (n + i)%nat) (option_map S d)) with
                    | Some w => Nat.min (2 + n) w
                    | None => (2 + n)%nat
                    end = (2 + n)%nat) as Hmin.
  { intros [k|]; simpl; lia. }
  cbn [option_map]. rewrite Nat.add_0_r.
  rewrite Nat.min_r by (simpl; rewrite length_app; simpl; lia).
  rewrite !Hmin.
  replace (2 + n - 2)%nat with n by lia. apply take_app_length.
Qed.

Section Parse.

Variable nfkc : string -> string.
Variable check_bracketed_host : string -> option string.

(** [urlsplit] on scheme://netloc/path, for a network location without
    brackets. *)
Lemma urlsplit_netloc (scheme netloc path : string) :
  valid_scheme scheme = true ->
  all userinfo_char netloc = true ->
  urlsplit nfkc check_bracketed_host (scheme ++ "://" ++ netloc ++ "/" ++ path)
  = Ok {| Urllib.scheme := lower scheme; Urllib.netloc := netloc |}.
Proof.
  intros Hs Hn. unfold valid_scheme in Hs.
  destruct scheme as [|c sch]; [discriminate|].
  apply andb_true_iff in Hs as [Hc Hs].
  destruct (alpha_kept c Hc) as [Hc0 Hc1].
  change (String c sch ++ "://" ++ netloc ++ "/" ++ path)
    with (String c (sch ++ String ":" (String "/" (String "/" (netloc ++ String "/" path))))).
  unfold urlsplit. cbn [lstrip]. rewrite Hc0.
  assert (remove unsafe_url_byte
            (String c (sch ++ String ":" (String "/" (String "/" (netloc ++ String "/" path)))))
          = String c sch ++ String ":" (String "/" (String "/"
              (netloc ++ String "/" (remove unsafe_url_byte path))))) as ->.
  { change (String c (sch ++ ?r)) with (String c sch ++ r).
    rewrite remove_app.
    rewrite (remove_none _ (String c sch))
      by (eapply all_impl; [apply scheme_char_safe | exact Hs]).
    f_equal. cbn [remove unsafe_url_byte]. simpl. do 3 f_equal.
    rewrite remove_app.
    rewrite (remove_none _ netloc)
      by (eapply all_impl; [apply userinfo_char_safe | exact Hn]).
    reflexivity. }
  set (path' := remove unsafe_url_byte path).
  rewrite find_colon_after_scheme by exact Hs.
  cbn [String.length]. rewrite app_cons, Hc1.
  rewrite <- app_cons.
  change (S (String.length sch)) with (String.length (String c sch)).
  rewrite take_app_length, Hs, drop_past_colon.
  cbn [take]. rewrite String.eqb_refl.
  pose proof (_splitnetloc_netloc netloc path' Hn) as Hnet.
  destruct (_splitnetloc _ 2) as [nl rest]. cbn [fst] in Hnet. subst nl.
  rewrite !(netloc_lacks _ netloc) by (reflexivity || exact Hn).
  cbn [andb orb negb rbind].
  unfold _checknetloc.
  replace (isascii netloc) with true.
  - rewrite orb_true_r. reflexivity.
  - symmetry. rewrite isascii_all. eapply all_impl; [apply userinfo_char_ascii | exact Hn].
Qed.

(** The [hostname] of userinfo@host:port is the host in lower case. *)
Lemma hostname_of_authority (scheme userinfo host port : string) :
  all host_char host = true ->
  all is_digit port = true ->
  default "" (hostname {| Urllib.scheme := scheme;
                          Urllib.netloc := userinfo ++ "@" ++ host ++ ":" ++ port |})
  = lower host.
Proof.
  intros Hh Hp. unfold hostname, _hostinfo_hostname. cbn [Urllib.netloc].
  assert (contains "@" (host ++ ":" ++ port) = false) as Hat.
  { apply (all_not_contains (fun c => negb (Ascii.eqb "@" c))); [reflexivity|].
    rewrite all_app, andb_true_iff. split.
    - eapply all_impl; [|exact Hh]. intros c Hc. clear -Hc. revert Hc. by_char c.
    - change (":" ++ port) with (String ":" port). cbn [all].
      eapply all_impl; [|exact Hp]. intros c Hc. now rewrite digit_not_at. }
  unfold rpartition.
  change (userinfo ++ "@" ++ host ++ ":" ++ port)
    with (userinfo ++ String "@" (host ++ ":" ++ port)).
  rewrite rfind_last by exact Hat.
  replace (drop (S (String.length userinfo))
             (userinfo ++ String "@" (host ++ ":" ++ port)))
    with (host ++ ":" ++ port).
  2:{ clear. induction userinfo as [|c u IH]; sapp; [reflexivity | exact IH]. }
  cbn [snd].
  assert (contains "[" (host ++ ":" ++ port) = false) as Hbr.
  { apply (all_not_contains userinfo_char); [reflexivity|].
    rewrite all_app, andb_true_iff. split.
    - eapply all_impl; [apply host_char_userinfo | exact Hh].
    - change (":" ++ port) with (String ":" port). cbn [all].
      eapply all_impl; [apply digit_userinfo | exact Hp]. }
  rewrite (partition_not_contains "[") by exact Hbr.
  change (host ++ ":" ++ port) with (host ++ String ":" port).
  rewrite partition_at by now apply host_lacks.
  cbn [fst].
  destruct host as [|c h]; [reflexivity|].
  cbn [nonempty negb].
  rewrite (partition_not_contains "%") by now apply host_lacks.
  cbn [default]. now rewrite !app_nil_r.
Qed.

End Parse.

End NetlocFacts.

Module LowerFacts.

Import PyStr Urllib CharFacts SchemeFacts.

Lemma lower_char_idem (c : ascii) : lower_char (lower_char c) = lower_char c.
Proof. by_char c. Qed.

Lemma lower_idem (s : string) : lower (lower s) = lower s.
Proof. induction s as [|c s IH]; simpl; [reflexivity | now rewrite lower_char_idem, IH]. Qed.

Section Parse.

Variable nfkc : string -> string.
Variable check_bracketed_host : string -> option string.

Lemma urlsplit_scheme_lower (url : string) (r : SplitResult) :
  urlsplit nfkc check_bracketed_host url = Ok r ->
  lower (Urllib.scheme r) = Urllib.scheme r.
Proof.
  unfold urlsplit.
  set (u := remove unsafe_url_byte (lstrip c0_control_or_space url)).
  match goal with |- context [let '(_, _) := ?m in _] =>
    assert (lower (fst m) = fst m) as Hm; [|destruct m as [scheme0 rest]] end.
  { destruct (find ":" u) as [[|i]|]; try reflexivity.
    destruct (match u with String c _ => _ | EmptyString => false end); try reflexivity.
    destruct (all scheme_char (take (S i) u)); [|reflexivity].
    cbn [fst]. apply lower_idem. }
  intros H. apply rbind_Ok_inv in H as (netloc & _ & H).
  apply rbind_Ok_inv in H as (_ & _ & H). injection H as <-. exact Hm.
Qed.

End Parse.

End LowerFacts.

Section ClassifierFacts.

Variable is_url : string -> bool.
Variable nfkc : string -> string.
Variable check_bracketed_host : string -> option string.

Local Abbreviation classify := (_get_domain_scheme is_url nfkc check_bracketed_host).

(** X10: user information and a port do not reach the domain.  A URL
    scheme://userinfo@host:port/path that [is_url] recognises, with a plain
    host and a numeric port, is classified as the host and the scheme, both
    in lower case, so it is dispatched as the URL without them would be. *)
Theorem classify_drops_userinfo_and_port (scheme userinfo host port path : string) :
  valid_scheme scheme = true ->
  PyStr.all userinfo_char userinfo = true ->
  PyStr.all host_char host = true ->
  PyStr.all PyStr.is_digit port = true ->
  is_url (scheme ++ "://" ++ userinfo ++ "@" ++ host ++ ":" ++ port ++ "/" ++ path) = true ->
  classify (scheme ++ "://" ++ userinfo ++ "@" ++ host ++ ":" ++ port ++ "/" ++ path)
  = Ok (PyStr.lower host, PyStr.lower scheme).
Proof.
  intros Hs Hu Hh Hp Hurl. unfold _get_domain_scheme, Urllib.urlparse. rewrite Hurl.
  replace (scheme ++ "://" ++ userinfo ++ "@" ++ host ++ ":" ++ port ++ "/" ++ path)
    with (scheme ++ "://" ++ (userinfo ++ "@" ++ host ++ ":" ++ port) ++ "/" ++ path)
    by now rewrite !NetlocFacts.app_assoc_str.
  rewrite NetlocFacts.urlsplit_netloc; [|assumption|].
  - cbn [rbind Urllib.scheme]. now rewrite NetlocFacts.hostname_of_authority.
  - rewrite !NetlocFacts.all_app, Hu.
    rewrite (PyStrFacts.all_impl host_char userinfo_char host
               NetlocFacts.host_char_userinfo Hh).
    rewrite (PyStrFacts.all_impl PyStr.is_digit userinfo_char port
               NetlocFacts.digit_userinfo Hp).
    reflexivity.
Qed.

(** X11: whatever the identifier, the scheme of its classification is in
    lower case and made of scheme characters, so it can be compared with
    the lower-case keys of the registry as it is. *)
Theorem classified_scheme_lower_case (url domain scheme : string) :
  classify url = Ok (domain, scheme) ->
  PyStr.lower scheme = scheme /\ PyStr.all Urllib.scheme_char scheme = true.
Proof.
  intros H. split; [|now apply (SchemeFacts.classified_scheme_plain _ _ _ _ _ _ H)].
  revert H. unfold _get_domain_scheme, Urllib.urlparse. destruct (is_url url).
  - intros H. apply SchemeFacts.rbind_Ok_inv in H as (r & Hr & H). injection H as _ <-.
    now apply LowerFacts.urlsplit_scheme_lower with nfkc check_bracketed_host url.
  - intros H. injection H as _ <-. reflexivity.
Qed.

End ClassifierFacts.

Lemma classify_drops_userinfo_and_port_witness :
  Sample.classify "https://tok:en@GitHub.com:443/a/b" = Ok ("github.com", "https").
Proof.
  apply (classify_drops_userinfo_and_port is_url_spec (fun s => s) (fun _ => None)
           "https" "tok:en" "GitHub.com" "443" "a/b"); reflexivity.
Defined.

Lemma classified_scheme_lower_case_witness :
  PyStr.lower "gh" = "gh" /\ PyStr.all Urllib.scheme_char "gh" = true.
Proof.
  apply (classified_scheme_lower_case is_url_spec (fun s => s) (fun _ => None)
           "GH://User@host/x" "host" "gh").
  reflexivity.
Defined.

(** ** The [Scheme] enumeration *)

(** X12: [Scheme(value)] and the members' values are inverse to each other:
    every member is found again from its value, a value that is found is the
    value of its member, and any other text raises [ValueError]. *)
Theorem Scheme_value_round_trip :
  (forall s, Scheme_of_value (Scheme_value s) = Ok s)
  /\ (forall v s, Scheme_of_value v = Ok s -> v = Scheme_value s)
  /\ (forall v, (forall s, Scheme_value s <> v) ->
        Scheme_of_value v
        = Raise (ValueError (PyRepr.repr v ++ " is not a valid Scheme"))).
Proof.
  split; [|split].
  - intros []; reflexivity.
  - intros v s. unfold Scheme_of_value.
    destruct (List.find _ Scheme_members) as [s'|] eqn:Hf; [|discriminate].
    intros H. injection H as ->. apply List.find_some in Hf as [_ Hv].
    apply String.eqb_eq in Hv. now symmetry.
  - intros v Hv. unfold Scheme_of_value.
    destruct (List.find _ Scheme_members) as [s'|] eqn:Hf; [|reflexivity].
    apply List.find_some in Hf as [_ He]. apply String.eqb_eq in He.
    now destruct (Hv s').
Qed.

Lemma Scheme_value_round_trip_witness :
  Scheme_of_value "ftp" = Raise (ValueError "'ftp' is not a valid Scheme")
  /\ "pypackage" = Scheme_value PYPACKAGE.
Proof.
  split.
  - apply (proj2 (proj2 Scheme_value_round_trip) "ftp"). intros []; discriminate.
  - apply (proj1 (proj2 Scheme_value_round_trip) "pypackage" PYPACKAGE). reflexivity.
Defined.

(** ** A constructed manager end to end *)

Section ManagerFacts.

Variable is_url : string -> bool.
Variable parse_cache_option : string -> CachingEnum * ExpireAfter.
Variable nfkc : string -> string.
Variable check_bracketed_host : string -> option string.
Variables FileFetcher HttpFetcher GitHubFetcher PythonPackageFetcher : StyleFetcherClass.

Local Abbreviation classify := (_get_domain_scheme is_url nfkc check_bracketed_host).
Local Abbreviation dispatch := (fetch is_url nfkc check_bracketed_host).
Local Abbreviation order :=
  (construction_order FileFetcher HttpFetcher GitHubFetcher PythonPackageFetcher).
Local Abbreviation new_manager :=
  (__post_init__ parse_cache_option
     FileFetcher HttpFetcher GitHubFetcher PythonPackageFetcher).

(** X14: a manager as [__post_init__] builds it never rejects a scheme that
    one of its fetchers declares: an identifier classified with such a
    scheme resolves to a registered fetcher, which handles the fetch. *)
Theorem manager_serves_declared_schemes (offline : bool) (cache_dir cache_option : string)
    (st : UrllibState) (url domain scheme : string) (f : StyleFetcher) :
  let m := fst (new_manager offline cache_dir cache_option st) in
  classify url = Ok (domain, scheme) ->
  In f (order (session m)) ->
  In scheme (protocols (klass f)) ->
  exists g, resolves_to (fetchers m) domain scheme g
            /\ dispatch m url = handled_by m g url.
Proof.
  cbv zeta. intros Hc Hf Hp.
  set (m := fst (new_manager offline cache_dir cache_option st)) in *.
  assert (is_Some (fetchers m !! scheme)) as [fs Hs].
  { destruct (__post_init___fields parse_cache_option FileFetcher HttpFetcher
                GitHubFetcher PythonPackageFetcher offline cache_dir cache_option st)
      as [Hreg _].
    cbv zeta in Hreg. fold m in Hreg. rewrite Hreg, _get_fetchers_registry.
    apply dict_lookup_claimed, flat_map_pairs_keys. exists f. split; [assumption|].
    now left. }
  destruct (fetch_cases is_url nfkc check_bracketed_host m url domain scheme Hc)
    as [He | Hok]; [|exact Hok].
  exfalso. revert He. unfold fetch. rewrite Hc, Hs.
  destruct (if PyStr.nonempty domain then fetchers m !! domain else None) as [fd|].
  - destruct (_ && requires_connection (klass fd)); discriminate.
  - destruct (_ && requires_connection (klass fs)); discriminate.
Qed.

End ManagerFacts.

Lemma manager_serves_declared_schemes_witness :
  exists g, resolves_to (fetchers (Sample.manager false)) "example.org" "https" g
            /\ Sample.fetch (Sample.manager false) "https://example.org/style.toml"
               = handled_by (Sample.manager false) g "https://example.org/style.toml".
Proof.
  refine (manager_serves_declared_schemes is_url_spec Sample.parse_cache_option
            (fun s => s) (fun _ => None)
            Sample.FileFetcher Sample.HttpFetcher Sample.GitHubFetcher
            Sample.PythonPackageFetcher false "/tmp/cache" "forever" urllib_initial
            "https://example.org/style.toml" "example.org" "https" Sample.http _ _ _).
  - reflexivity.
  - vm_compute. right. left. reflexivity.
  - vm_compute. right. left. reflexivity.
Defined.
